(** * Inter-company invoice mirroring (account_invoice_inter_company)

    A shallow embedding of [models/account_move.py]: the [account.move]
    overrides [action_post], [button_draft], [button_cancel], [write] and the
    mirror builder [_inter_company_create_invoice], over an explicit record
    store, followed by the properties of the workflow.

    Conventions of the embedding.
    - A recordset is the list of its ids; a field read goes through the store
      ([browse]), a read of a record that is gone raises [MissingError].
    - Selection fields ([state], [move_type], [display_type]) are enumerations.
    - Monetary amounts are Python floats in the source; here they are integers
      counting a fixed sub-unit.  They are only ever passed to the host's
      [float_compare] and to string formatting, both of which are operations
      of the [Host] interface.
    - The environment of a call is an explicit argument ([context]): the user,
      the superuser mode and the context keys.  [sudo()], [with_user()] and
      [with_company()] change it, not the data.  A [search] the source runs on
      a [sudo()] recordset sees every row; the one search it runs with the
      rights of the caller, the guard of [action_post], sees the rows the
      record rules of the host let that user read ([search_as]).  The record
      rules, and the access check the source performs itself
      ([check_access_rule] in [_check_intercompany_product]), are operations
      of the [Host] interface.
    - Python exceptions are the [Raise] outcome, which carries the store as it
      is at the raise; [transaction] is the request boundary that rolls it
      back. *)

From Stdlib Require Import ZArith List String Bool Lia DecimalString.
Import ListNotations.
Open Scope Z_scope.

(** ** Data model *)

Inductive move_state := draft | posted | cancel.

Inductive move_kind :=
| entry | out_invoice | out_refund | in_invoice | in_refund
| out_receipt | in_receipt.

Inductive line_display := line_section | line_note.

Definition move_state_eqb (a b : move_state) : bool :=
  match a, b with
  | draft, draft | posted, posted | cancel, cancel => true
  | _, _ => false
  end.

Definition move_kind_eqb (a b : move_kind) : bool :=
  match a, b with
  | entry, entry | out_invoice, out_invoice | out_refund, out_refund
  | in_invoice, in_invoice | in_refund, in_refund
  | out_receipt, out_receipt | in_receipt, in_receipt => true
  | _, _ => false
  end.

Record res_partner := {
  partner_key : Z;
  display_name : string;
  commercial_partner_id : Z
}.

Record res_company := {
  company_key : Z;
  company_name : string;
  company_partner_id : res_partner;
  company_share_product : bool;
  invoice_auto_validation : bool;
  intercompany_invoice_user_id : option Z
}.

Record res_currency := {
  currency_key : Z;
  rounding : Z
}.

Record product_product := {
  product_key : Z;
  product_name : string
}.

Record account_journal := {
  journal_key : Z;
  journal_type : string;
  journal_company_id : Z
}.

Record account_move_line := {
  move_id : Z;
  line_company_id : Z;
  display_type : option line_display;
  product_id : option product_product;
  line_name : string;
  product_uom_id : Z;
  quantity : Z;
  price_unit : Z;
  discount : Z;
  sequence : Z;
  auto_invoice_line_id : option Z
}.

Record account_move := {
  name : string;
  move_type : move_kind;
  state : move_state;
  company_id : res_company;
  partner_id : res_partner;
  currency_id : res_currency;
  journal_id : option Z;
  ref : string;
  invoice_date : string;
  narration : string;
  invoice_origin : string;
  auto_generated : bool;
  auto_invoice_id : option Z;
  amount_untaxed : Z;
  amount_total : Z;
  message_ids : list string
}.

(** Field updates of a move (the record is immutable, an update rebuilds it). *)

Definition set_state (s : move_state) (m : account_move) : account_move :=
  {| name := name m; move_type := move_type m; state := s;
     company_id := company_id m; partner_id := partner_id m;
     currency_id := currency_id m; journal_id := journal_id m;
     ref := ref m; invoice_date := invoice_date m; narration := narration m;
     invoice_origin := invoice_origin m; auto_generated := auto_generated m;
     auto_invoice_id := auto_invoice_id m;
     amount_untaxed := amount_untaxed m; amount_total := amount_total m;
     message_ids := message_ids m |}.

Definition set_name (n : string) (m : account_move) : account_move :=
  {| name := n; move_type := move_type m; state := state m;
     company_id := company_id m; partner_id := partner_id m;
     currency_id := currency_id m; journal_id := journal_id m;
     ref := ref m; invoice_date := invoice_date m; narration := narration m;
     invoice_origin := invoice_origin m; auto_generated := auto_generated m;
     auto_invoice_id := auto_invoice_id m;
     amount_untaxed := amount_untaxed m; amount_total := amount_total m;
     message_ids := message_ids m |}.

Definition set_invoice_origin (o : string) (m : account_move) : account_move :=
  {| name := name m; move_type := move_type m; state := state m;
     company_id := company_id m; partner_id := partner_id m;
     currency_id := currency_id m; journal_id := journal_id m;
     ref := ref m; invoice_date := invoice_date m; narration := narration m;
     invoice_origin := o; auto_generated := auto_generated m;
     auto_invoice_id := auto_invoice_id m;
     amount_untaxed := amount_untaxed m; amount_total := amount_total m;
     message_ids := message_ids m |}.

Definition set_auto_invoice_id (a : option Z) (m : account_move)
  : account_move :=
  {| name := name m; move_type := move_type m; state := state m;
     company_id := company_id m; partner_id := partner_id m;
     currency_id := currency_id m; journal_id := journal_id m;
     ref := ref m; invoice_date := invoice_date m; narration := narration m;
     invoice_origin := invoice_origin m; auto_generated := auto_generated m;
     auto_invoice_id := a;
     amount_untaxed := amount_untaxed m; amount_total := amount_total m;
     message_ids := message_ids m |}.

Definition set_amounts (u t : Z) (m : account_move) : account_move :=
  {| name := name m; move_type := move_type m; state := state m;
     company_id := company_id m; partner_id := partner_id m;
     currency_id := currency_id m; journal_id := journal_id m;
     ref := ref m; invoice_date := invoice_date m; narration := narration m;
     invoice_origin := invoice_origin m; auto_generated := auto_generated m;
     auto_invoice_id := auto_invoice_id m;
     amount_untaxed := u; amount_total := t;
     message_ids := message_ids m |}.

Definition add_message (body : string) (m : account_move) : account_move :=
  {| name := name m; move_type := move_type m; state := state m;
     company_id := company_id m; partner_id := partner_id m;
     currency_id := currency_id m; journal_id := journal_id m;
     ref := ref m; invoice_date := invoice_date m; narration := narration m;
     invoice_origin := invoice_origin m; auto_generated := auto_generated m;
     auto_invoice_id := auto_invoice_id m;
     amount_untaxed := amount_untaxed m; amount_total := amount_total m;
     message_ids := message_ids m ++ [body] |}.

Definition set_auto_invoice_line_id (a : option Z) (l : account_move_line)
  : account_move_line :=
  {| move_id := move_id l; line_company_id := line_company_id l;
     display_type := display_type l; product_id := product_id l;
     line_name := line_name l; product_uom_id := product_uom_id l;
     quantity := quantity l; price_unit := price_unit l;
     discount := discount l; sequence := sequence l;
     auto_invoice_line_id := a |}.

(** ** The record store *)

(** The tables the module reads and writes.  [next_move_id] and
    [next_line_id] are the id sequences of the two tables. *)
Record db := {
  moves : list (Z * account_move);
  move_lines : list (Z * account_move_line);
  companies : list res_company;
  journals : list account_journal;
  next_move_id : Z;
  next_line_id : Z
}.

Definition with_moves (f : list (Z * account_move) -> list (Z * account_move))
  (st : db) : db :=
  {| moves := f (moves st); move_lines := move_lines st;
     companies := companies st; journals := journals st;
     next_move_id := next_move_id st; next_line_id := next_line_id st |}.

Definition with_move_lines
  (f : list (Z * account_move_line) -> list (Z * account_move_line))
  (st : db) : db :=
  {| moves := moves st; move_lines := f (move_lines st);
     companies := companies st; journals := journals st;
     next_move_id := next_move_id st; next_line_id := next_line_id st |}.

(** The environment of a call: the user it runs as ([env.uid]), the superuser
    mode ([env.su]), and the context keys the module sets or reads. *)
Record context := {
  uid : Z;
  su : bool;
  allowed_company_ids : list Z;
  skip_check_amount_difference : bool;
  check_move_validity : bool;
  force_delete : bool
}.

Definition default_context : context :=
  {| uid := 2;
     su := false;
     allowed_company_ids := [];
     skip_check_amount_difference := false;
     check_move_validity := true;
     force_delete := false |}.

Definition with_skip_check_amount_difference (b : bool) (c : context)
  : context :=
  {| uid := uid c; su := su c;
     allowed_company_ids := allowed_company_ids c;
     skip_check_amount_difference := b;
     check_move_validity := check_move_validity c;
     force_delete := force_delete c |}.

Definition with_check_move_validity (b : bool) (c : context) : context :=
  {| uid := uid c; su := su c;
     allowed_company_ids := allowed_company_ids c;
     skip_check_amount_difference := skip_check_amount_difference c;
     check_move_validity := b;
     force_delete := force_delete c |}.

Definition with_force_delete (b : bool) (c : context) : context :=
  {| uid := uid c; su := su c;
     allowed_company_ids := allowed_company_ids c;
     skip_check_amount_difference := skip_check_amount_difference c;
     check_move_validity := check_move_validity c;
     force_delete := b |}.

Definition with_allowed_company_ids (cs : list Z) (c : context) : context :=
  {| uid := uid c; su := su c;
     allowed_company_ids := cs;
     skip_check_amount_difference := skip_check_amount_difference c;
     check_move_validity := check_move_validity c;
     force_delete := force_delete c |}.

(** [sudo()]: the same user, in superuser mode. *)
Definition sudo (c : context) : context :=
  {| uid := uid c; su := true;
     allowed_company_ids := allowed_company_ids c;
     skip_check_amount_difference := skip_check_amount_difference c;
     check_move_validity := check_move_validity c;
     force_delete := force_delete c |}.

(** [with_user(user)]: another user, out of superuser mode. *)
Definition with_user (user : Z) (c : context) : context :=
  {| uid := user; su := false;
     allowed_company_ids := allowed_company_ids c;
     skip_check_amount_difference := skip_check_amount_difference c;
     check_move_validity := check_move_validity c;
     force_delete := force_delete c |}.

(** [with_company(company)]: the company becomes the first of the allowed
    companies. *)
Definition with_company (company : Z) (c : context) : context :=
  with_allowed_company_ids
    (company :: filter (fun k => negb (k =? company)) (allowed_company_ids c))
    c.

(** ** Exceptions and the store monad *)

Inductive exn :=
| UserError (msg : string)
| ExpectedSingleton (ids : list Z)
| MissingError (id : Z)
| RecursionError.

Inductive outcome (A : Type) :=
| Ok (a : A) (st : db)
| Raise (e : exn) (st : db).

Arguments Ok {A} a st.
Arguments Raise {A} e st.

Definition M (A : Type) := db -> outcome A.

Definition ret {A} (a : A) : M A := fun st => Ok a st.

Definition raise {A} (e : exn) : M A := fun st => Raise e st.

Definition bind {A B} (m : M A) (f : A -> M B) : M B :=
  fun st =>
    match m st with
    | Ok a st' => f a st'
    | Raise e st' => Raise e st'
    end.

Definition gets {A} (f : db -> A) : M A := fun st => Ok (f st) st.

Definition modify (f : db -> db) : M unit := fun st => Ok tt (f st).

Notation "x <- m ;; k" := (bind m (fun x => k))
  (at level 61, m at next level, right associativity).
Notation "m ;;; k" := (bind m (fun _ => k))
  (at level 61, right associativity).

(** [for x in xs: body(x)] *)
Fixpoint for_each {A} (xs : list A) (body : A -> M unit) : M unit :=
  match xs with
  | [] => ret tt
  | x :: xs' => body x ;;; for_each xs' body
  end.

(** A list comprehension whose element expression may raise. *)
Fixpoint map_M {A B} (f : A -> M B) (xs : list A) : M (list B) :=
  match xs with
  | [] => ret []
  | x :: xs' => y <- f x ;; ys <- map_M f xs' ;; ret (y :: ys)
  end.

(** The request boundary: an exception rolls the store back to what it was
    when the request started. *)
Definition transaction {A} (m : M A) (st : db) : outcome A :=
  match m st with
  | Ok a st' => Ok a st'
  | Raise e _ => Raise e st
  end.

(** ** Record access *)

Fixpoint lookup {A} (i : Z) (tbl : list (Z * A)) : option A :=
  match tbl with
  | [] => None
  | (j, a) :: tbl' => if j =? i then Some a else lookup i tbl'
  end.

Definition mem (i : Z) (ids : list Z) : bool := existsb (Z.eqb i) ids.

Definition update_rows {A} (ids : list Z) (f : A -> A) (tbl : list (Z * A))
  : list (Z * A) :=
  map (fun r => if mem (fst r) ids then (fst r, f (snd r)) else r) tbl.

Definition delete_rows {A} (ids : list Z) (tbl : list (Z * A))
  : list (Z * A) :=
  filter (fun r => negb (mem (fst r) ids)) tbl.

Definition browse (i : Z) : M account_move :=
  fun st =>
    match lookup i (moves st) with
    | Some m => Ok m st
    | None => Raise (MissingError i) st
    end.

(** [search(domain)] on a superuser recordset of [account.move]: the ids of
    the rows that satisfy the domain, in table order; no record rule
    applies. *)
Definition search (domain : account_move -> bool) : M (list Z) :=
  gets (fun st => map fst (filter (fun r => domain (snd r)) (moves st))).

(** [search(domain, limit=1)], on a superuser recordset too. *)
Definition search_limit_1 (domain : account_move -> bool) : M (option Z) :=
  gets (fun st =>
          option_map fst (find (fun r => domain (snd r)) (moves st))).

(** [self.filtered(p)] *)
Fixpoint filtered (p : account_move -> bool) (self : list Z) : M (list Z) :=
  match self with
  | [] => ret []
  | i :: self' =>
      m <- browse i ;;
      rest <- filtered p self' ;;
      ret (if p m then i :: rest else rest)
  end.

(** [self.invoice_line_ids] *)
Definition invoice_line_ids (self : Z) : M (list (Z * account_move_line)) :=
  gets (fun st => filter (fun r => move_id (snd r) =? self) (move_lines st)).

Definition opt_eqb (a : option Z) (b : Z) : bool :=
  match a with
  | Some x => x =? b
  | None => false
  end.

Definition is_set {A} (a : option A) : bool :=
  match a with
  | Some _ => true
  | None => false
  end.

(** ** The host ledger

    What the module consumes from the framework and does not define itself.
    The operations whose result depends on floating point, on tax
    computation or on the access rules are the fields of [Host]; every
    theorem below holds for every host. *)

Inductive precision :=
| precision_digits (digits : Z)
| precision_rounding (r : Z).

Class Host := {
  (** [odoo.tools.float_compare]: -1, 0 or 1 *)
  float_compare : Z -> Z -> precision -> Z;
  (** [env["decimal.precision"].precision_get] *)
  precision_get : string -> Z;
  (** [product_tmpl_id.check_access_rule("read")] as the default user of the
      company, [true] when access is granted *)
  check_access_rule_read : res_company -> product_product -> bool;
  (** the record rules of [account.move]: [true] when the user, with these
      allowed companies, may read the document *)
  record_rule_read : Z -> list Z -> account_move -> bool;
  (** the totals (untaxed, total) the ledger computes for a document of a
      company from its invoice lines *)
  compute_amounts : res_company -> list account_move_line -> Z * Z;
  (** [str] of a float, as the percent-s formatting does *)
  str_float : Z -> string
}.

(** The percent-d formatting of an integer. *)
Definition str_int (z : Z) : string := NilZero.string_of_int (Z.to_int z).

Definition cat (a b : string) : string := String.append a b.
Infix "+++" := cat (right associativity, at level 60).

Definition dquote : string := String (Ascii.ascii_of_nat 34) EmptyString.
Definition newline : string := String (Ascii.ascii_of_nat 10) EmptyString.

(** The transitions of the ledger engine, [super()] of the overrides.  The
    engine moves the records of [self] to the target state; it is modelled as
    a direct update of the rows, not re-dispatched through the overrides of
    this module. *)
Definition super_action_post (self : list Z) : M unit :=
  modify (with_moves (update_rows self (set_state posted))).

Definition super_button_draft (self : list Z) : M unit :=
  modify (with_moves (update_rows self (set_state draft))).


(** [super().write(vals)]: [vals] is represented by the update it performs on
    one record, recomputation of the stored totals included. *)
Definition vals := account_move -> account_move.

Definition super_write (self : list Z) (v : vals) : M unit :=
  modify (with_moves (update_rows self v)).

(** [self.create(vals)] on [account.move]: the next id of the sequence. *)
Definition create_db (v : account_move) (st : db) : db :=
  {| moves := moves st ++ [(next_move_id st, v)];
     move_lines := move_lines st;
     companies := companies st; journals := journals st;
     next_move_id := next_move_id st + 1;
     next_line_id := next_line_id st |}.

Definition create (v : account_move) : M Z :=
  fun st => Ok (next_move_id st) (create_db v st).

(** [env["account.move.line"].create(vals_list)] *)
Fixpoint number_from {A} (n : Z) (xs : list A) : list (Z * A) :=
  match xs with
  | [] => []
  | x :: xs' => (n, x) :: number_from (n + 1) xs'
  end.

Definition create_lines_db (vs : list account_move_line) (st : db) : db :=
  {| moves := moves st;
     move_lines := move_lines st ++ number_from (next_line_id st) vs;
     companies := companies st; journals := journals st;
     next_move_id := next_move_id st;
     next_line_id := next_line_id st + Z.of_nat (List.length vs) |}.

Definition create_lines (vs : list account_move_line) : M unit :=
  modify (create_lines_db vs).

(** [unlink()]: the rows are deleted, their lines go with them (cascade) and
    the [auto_invoice_id] / [auto_invoice_line_id] references to what was
    deleted are cleared (set null). *)
Definition clear_dangling_move (ids : list Z) (m : account_move)
  : account_move :=
  match auto_invoice_id m with
  | Some s => if mem s ids then set_auto_invoice_id None m else m
  | None => m
  end.

Definition clear_dangling_line (ids : list Z) (l : account_move_line)
  : account_move_line :=
  match auto_invoice_line_id l with
  | Some s => if mem s ids then set_auto_invoice_line_id None l else l
  | None => l
  end.

Definition unlink_db (self : list Z) (st : db) : db :=
  let gone_lines :=
    map fst (filter (fun r => mem (move_id (snd r)) self) (move_lines st)) in
  {| moves :=
       map (fun r => (fst r, clear_dangling_move self (snd r)))
           (delete_rows self (moves st));
     move_lines :=
       map (fun r => (fst r, clear_dangling_line gone_lines (snd r)))
           (filter (fun r => negb (mem (move_id (snd r)) self))
                   (move_lines st));
     companies := companies st; journals := journals st;
     next_move_id := next_move_id st;
     next_line_id := next_line_id st |}.

Definition unlink (self : list Z) : M unit := modify (unlink_db self).

(** [message_post(body=...)] *)
Definition message_post (self : Z) (body : string) : M unit :=
  modify (with_moves (update_rows [self] (add_message body))).

Section AccountMove.

Context {host : Host}.

(** [_move_autocomplete_invoice_lines_values]: the totals of the document are
    those the ledger computes from its lines. *)
Definition _move_autocomplete_invoice_lines_values (self : Z) : M unit :=
  m <- browse self ;;
  ls <- invoice_line_ids self ;;
  let '(u, t) := compute_amounts (company_id m) (map snd ls) in
  modify (with_moves (update_rows [self] (set_amounts u t))).

(** A document is visible in an environment: the superuser mode bypasses the
    record rules. *)
Definition visible (ctx : context) (m : account_move) : bool :=
  su ctx || record_rule_read (uid ctx) (allowed_company_ids ctx) m.

(** [self.search(domain)] with the rights of the environment of [self]. *)
Definition search_as (ctx : context) (domain : account_move -> bool)
  : M (list Z) :=
  search (fun m => domain m && visible ctx m).

(** ** The module: [AccountMove] *)

Definition _find_company_from_invoice_partner (self : Z)
  : M (option res_company) :=
  m <- browse self ;;
  gets (fun st =>
    find (fun c => partner_key (company_partner_id c)
                   =? commercial_partner_id (partner_id m))
         (companies st)).

Definition supported_types : list move_kind :=
  [out_invoice; in_invoice; out_refund; in_refund].

Definition in_types (t : move_kind) (ts : list move_kind) : bool :=
  existsb (move_kind_eqb t) ts.

Definition MAP_INVOICE_TYPE : list (move_kind * move_kind) :=
  [(out_invoice, in_invoice); (in_invoice, out_invoice);
   (out_refund, in_refund); (in_refund, out_refund)].

Definition MAP_JOURNAL_TYPE : list (move_kind * string) :=
  [(out_invoice, "purchase"%string); (in_invoice, "sale"%string);
   (out_refund, "purchase"%string); (in_refund, "sale"%string)].

(** [dict.get] *)
Fixpoint dict_get {V} (d : list (move_kind * V)) (k : move_kind) : option V :=
  match d with
  | [] => None
  | (k', v) :: d' => if move_kind_eqb k' k then Some v else dict_get d' k
  end.

Definition _get_destination_invoice_type (m : account_move)
  : option move_kind :=
  dict_get MAP_INVOICE_TYPE (move_type m).

Definition _get_destination_journal_type (m : account_move) : option string :=
  dict_get MAP_JOURNAL_TYPE (move_type m).

Definition product_error (dest_company : res_company) (p : product_product)
  : string :=
  "You cannot create invoice in company '" +++ company_name dest_company
  +++ "' with product '" +++ product_name p
  +++ "' because it is not multicompany".

Definition _check_intercompany_product (self : Z) (dest_company : res_company)
  : M unit :=
  if company_share_product dest_company then ret tt
  else
    ls <- invoice_line_ids self ;;
    for_each ls (fun line =>
      match product_id (snd line) with
      | None => ret tt
      | Some p =>
          if check_access_rule_read dest_company p then ret tt
          else raise (UserError (product_error dest_company p))
      end).

Definition journal_error (dest_journal_type : option string)
  (dest_company : res_company) : string :=
  "Please define "
  +++ match dest_journal_type with Some t => t | None => "None" end
  +++ " journal for this company: " +++ dquote +++ company_name dest_company
  +++ dquote +++ " (id:" +++ str_int (company_key dest_company) +++ ").".

(** [env["account.journal"].search([("type", "=", dest_journal_type),
    ("company_id", "=", dest_company.id)], limit=1)] *)
Definition search_journal (dest_journal_type : option string)
  (dest_company : res_company) (st : db) : option account_journal :=
  find (fun j =>
          match dest_journal_type with
          | Some t => String.eqb (journal_type j) t
          | None => false
          end
          && (journal_company_id j =? company_key dest_company))
       (journals st).

(** [_prepare_invoice_data]: the header of the mirror.  The form yields a
    draft document of the destination company, named "/" until a number is
    given to it, with no lines and therefore zero totals.  The optional
    [partner_shipping_id] of the sale module, which no property below reads,
    is not part of the move record. *)
Definition _prepare_invoice_data (self : Z) (dest_company : res_company)
  : M account_move :=
  src <- browse self ;;
  let dest_inv_type := _get_destination_invoice_type src in
  let dest_journal_type := _get_destination_journal_type src in
  dest_journal <- gets (search_journal dest_journal_type dest_company) ;;
  match dest_journal with
  | None => raise (UserError (journal_error dest_journal_type dest_company))
  | Some j =>
      ret {| name := "/";
             move_type := match dest_inv_type with
                          | Some t => t
                          | None => entry
                          end;
             state := draft;
             company_id := dest_company;
             journal_id := Some (journal_key j);
             partner_id := company_partner_id (company_id src);
             ref := name src;
             invoice_date := invoice_date src;
             narration := narration src;
             currency_id := currency_id src;
             invoice_origin :=
               company_name (company_id src) +++ " - Invoice: " +++ name src;
             auto_invoice_id := Some self;
             auto_generated := true;
             amount_untaxed := 0;
             amount_total := 0;
             message_ids := [] |}
  end.

(** [AccountMoveLine._prepare_account_move_line] (analytic dimensions, which
    no property below reads, are not part of the line record). *)
Definition _prepare_account_move_line (self : Z * account_move_line)
  (dest_move : Z) (dest_company : res_company) : M account_move_line :=
  dest <- browse dest_move ;;
  let src_line := snd self in
  ret {| line_company_id := company_key (company_id dest);
         display_type := display_type src_line;
         product_id := product_id src_line;
         line_name := line_name src_line;
         product_uom_id := product_uom_id src_line;
         quantity := quantity src_line;
         price_unit := price_unit src_line;
         discount := discount src_line;
         sequence := sequence src_line;
         move_id := dest_move;
         auto_invoice_line_id := Some (fst self) |}.

Definition line_error (line_name : string) : string :=
  "The invoice line '" +++ line_name +++ "' doesn't have a product. "
  +++ "All invoice lines should have a product for "
  +++ "inter-company invoices.".

Definition warning_body (dest_amount_total : Z) (invoice_name : string)
  (company_name : string) (amount_total : Z) : string :=
  "WARNING!!!!! Failure in the inter-company invoice "
  +++ "creation process: the total amount of this invoice "
  +++ "is " +++ str_float dest_amount_total
  +++ " but the total amount "
  +++ "of the invoice " +++ invoice_name
  +++ " in the company " +++ company_name
  +++ " is " +++ str_float amount_total.

(** Truth value of [force_number]: [False] or a name. *)
Definition truthy (s : option string) : bool :=
  match s with
  | Some (String _ _) => true
  | _ => false
  end.

Definition state_in (s : move_state) (ss : list move_state) : bool :=
  existsb (move_state_eqb s) ss.

(** The domain [("auto_invoice_id", "=", self.id), ("company_id", "=",
    dest_company.id)]. *)
Definition mirror_of (self : Z) (dest_company_id : Z) (m : account_move)
  : bool :=
  opt_eqb (auto_invoice_id m) self
  && (company_key (company_id m) =? dest_company_id).

(** [_inter_company_create_invoice], "if an invoice has already been
    generated delete it and force the same number": the value of
    [force_number]. *)
Definition reclaim_stale_mirror (self : Z) (dest_company : res_company)
  : M (option string) :=
  inter_invoice <- search (mirror_of self (company_key dest_company)) ;;
  match inter_invoice with
  | [] => ret None
  | [i] =>
      m <- browse i ;;
      if state_in (state m) [draft; cancel] then
        unlink [i] ;;;
        ret (Some (name m))
      else ret None
  | _ => raise (ExpectedSingleton inter_invoice)
  end.

(** [_inter_company_create_invoice], "create invoice lines": the value of
    [dest_move_line_data]. *)
Definition prepare_lines (self : Z) (dest_invoice : Z)
  (dest_company : res_company) : M (list account_move_line) :=
  src_lines <- invoice_line_ids self ;;
  map_M (fun src_line =>
           match product_id (snd src_line) with
           | None => raise (UserError (line_error (line_name (snd src_line))))
           | Some _ =>
               _prepare_account_move_line src_line dest_invoice dest_company
           end)
        (filter (fun x => negb (is_set (display_type (snd x)))) src_lines).

(** [_inter_company_create_invoice], "Validation of account invoice". *)
Definition validate_or_warn (post : context -> list Z -> M unit)
  (ctx : context) (self : Z) (dest_invoice : Z) (dest_company : res_company)
  : M unit :=
  let precision := precision_get "Account" in
  src <- browse self ;;
  dest <- browse dest_invoice ;;
  if invoice_auto_validation dest_company
     && (float_compare (amount_total src) (amount_total dest)
                       (precision_digits precision) =? 0)
  then post ctx [dest_invoice]
  else
    if negb (float_compare (amount_total src) (amount_total dest)
                           (precision_digits precision) =? 0)
    then message_post dest_invoice
           (warning_body (amount_total dest) (name src)
                         (company_name (company_id src)) (amount_total src))
    else ret tt.

(** [if force_number: dest_invoice_data["name"] = force_number] *)
Definition force_name (force_number : option string)
  (dest_invoice_data : account_move) : account_move :=
  match force_number with
  | Some n => if truthy force_number then set_name n dest_invoice_data
              else dest_invoice_data
  | None => dest_invoice_data
  end.

(** [_inter_company_create_invoice]; [post] is the [action_post] the new
    document is posted with.  [self] is a superuser recordset here
    ([action_post] enters the builder through [sudo()]), so the searches of
    the builder see every row. *)
Definition _inter_company_create_invoice
  (post : context -> list Z -> M unit)
  (ctx : context) (self : Z) (dest_company : res_company) : M Z :=
  let ctx := with_check_move_validity false ctx in
  _check_intercompany_product self dest_company ;;;
  force_number <- reclaim_stale_mirror self dest_company ;;
  dest_invoice_data <- _prepare_invoice_data self dest_company ;;
  let dest_invoice_data := force_name force_number dest_invoice_data in
  dest_invoice <- create dest_invoice_data ;;
  dest_move_line_data <- prepare_lines self dest_invoice dest_company ;;
  create_lines dest_move_line_data ;;;
  _move_autocomplete_invoice_lines_values dest_invoice ;;;
  validate_or_warn post ctx self dest_invoice dest_company ;;;
  ret dest_invoice.

(** The environment [action_post] enters the builder with: the intercompany
    user of the destination company when there is one, in superuser mode, in
    the destination company, with the amount check of [write] suppressed. *)
Definition builder_env (ctx : context) (dest_company : res_company)
  : context :=
  let env :=
    match intercompany_invoice_user_id dest_company with
    | Some intercompany_user => sudo (with_user intercompany_user ctx)
    | None => sudo ctx
    end in
  with_skip_check_amount_difference true
    (with_company (company_key dest_company) env).

(** The body of the loop of [action_post] for one source invoice.  The
    search for the posted mirror runs on [self], with the rights of the
    caller. *)
Definition action_post_one (post : context -> list Z -> M unit)
  (ctx : context) (src_invoice : Z) : M unit :=
  dest_company <- _find_company_from_invoice_partner src_invoice ;;
  src <- browse src_invoice ;;
  match dest_company with
  | None => ret tt
  | Some dest_company =>
      if auto_generated src then ret tt
      else
        inter_invoice <- search_as ctx (fun m =>
          mirror_of src_invoice (company_key dest_company) m
          && move_state_eqb (state m) posted) ;;
        match inter_invoice with
        | _ :: _ => ret tt
        | [] =>
            _inter_company_create_invoice post
              (builder_env ctx dest_company)
              src_invoice dest_company ;;;
            ret tt
        end
  end.

(** [action_post].  The mirror is posted through [action_post] again, so the
    method is recursive; [fuel] bounds the depth of the Python call stack. *)
Fixpoint action_post (fuel : nat) (ctx : context) (self : list Z) : M unit :=
  match fuel with
  | O => raise RecursionError
  | S fuel' =>
      super_action_post self ;;;
      todo <- filtered (fun x => in_types (move_type x) supported_types) self ;;
      for_each todo (action_post_one (action_post fuel') ctx)
  end.

Definition draft_error (invoice_name partner_name : string) : string :=
  "You can't modify this invoice as it has an inter company "
  +++ "invoice that's in posted state." +++ newline
  +++ "Invoice " +++ invoice_name +++ " to " +++ partner_name.

(** The domain of the search for the posted mirrors of [move]. *)
Definition posted_mirror_of (move : Z) (m : account_move) : bool :=
  opt_eqb (auto_invoice_id m) move && move_state_eqb (state m) posted.

(** The body of the loop of [button_draft] for one document. *)
Definition button_draft_check (move : Z) : M unit :=
  inter_invoice_posted <- search_limit_1 (posted_mirror_of move) ;;
  match inter_invoice_posted with
  | Some i =>
      m <- browse i ;;
      raise (UserError (draft_error (name m) (display_name (partner_id m))))
  | None => ret tt
  end.

Definition button_draft (ctx : context) (self : list Z) : M unit :=
  for_each self button_draft_check ;;;
  super_button_draft self.

Definition write_error (source_name : string) : string :=
  "This is an autogenerated multi company invoice and you're "
  +++ "trying to modify the amount, which will differ from the "
  +++ "source one (" +++ source_name +++ ")".

(** The body of the loop of [write] for one mirror. *)
Definition write_check (move : Z) : M unit :=
  m <- browse move ;;
  match auto_invoice_id m with
  | None => ret tt
  | Some s =>
      src <- browse s ;;
      if negb (float_compare (amount_untaxed m) (amount_untaxed src)
                 (precision_rounding (rounding (currency_id m))) =? 0)
      then raise (UserError (write_error (name src)))
      else ret tt
  end.

Definition write (ctx : context) (self : list Z) (v : vals) : M unit :=
  super_write self v ;;;
  if skip_check_amount_difference ctx then ret tt
  else
    todo <- filtered (fun x => is_set (auto_invoice_id x)) self ;;
    for_each todo write_check.





End AccountMove.

(** ** A concrete host and sample books

    Two managed companies A and B that invoice each other, amounts in cents,
    a ledger without taxes.  Used to run the workflow on concrete inputs. *)
Module Demo.

Definition round_half_up (x r : Z) : Z :=
  if r <=? 0 then x else Z.sgn x * ((2 * Z.abs x + r) / (2 * r)).

Definition rounding_of (p : precision) : Z :=
  match p with
  | precision_digits d => if d <? 2 then 10 ^ (2 - d) else 1
  | precision_rounding r => r
  end.

Definition cents_compare (a b : Z) (p : precision) : Z :=
  match round_half_up a (rounding_of p) ?= round_half_up b (rounding_of p) with
  | Eq => 0
  | Lt => -1
  | Gt => 1
  end.

Definition line_subtotal (l : account_move_line) : Z :=
  match display_type l with
  | Some _ => 0
  | None => quantity l * price_unit l
  end.

Definition untaxed_sum (ls : list account_move_line) : Z :=
  fold_right (fun l acc => line_subtotal l + acc) 0 ls.

#[export] Instance cents_host : Host := {|
  float_compare := cents_compare;
  precision_get := fun _ => 2;
  check_access_rule_read := fun _ p => product_key p <? 100;
  record_rule_read := fun _ cs m => mem (company_key (company_id m)) cs;
  compute_amounts := fun _ ls => (untaxed_sum ls, untaxed_sum ls);
  str_float := str_int
|}.

Definition partner_A : res_partner :=
  {| partner_key := 11; display_name := "Company A";
     commercial_partner_id := 11 |}.

Definition partner_B : res_partner :=
  {| partner_key := 12; display_name := "Company B";
     commercial_partner_id := 12 |}.

Definition company_A : res_company :=
  {| company_key := 1; company_name := "Company A";
     company_partner_id := partner_A; company_share_product := true;
     invoice_auto_validation := true;
     intercompany_invoice_user_id := None |}.

Definition company_B (auto_validation : bool) : res_company :=
  {| company_key := 2; company_name := "Company B";
     company_partner_id := partner_B; company_share_product := true;
     invoice_auto_validation := auto_validation;
     intercompany_invoice_user_id := None |}.

Definition EUR : res_currency := {| currency_key := 1; rounding := 1 |}.
Definition JPY : res_currency := {| currency_key := 2; rounding := 100 |}.

Definition service : product_product :=
  {| product_key := 7; product_name := "Service" |}.

Definition all_journals : list account_journal :=
  [ {| journal_key := 1; journal_type := "sale"; journal_company_id := 1 |};
    {| journal_key := 2; journal_type := "purchase"; journal_company_id := 1 |};
    {| journal_key := 3; journal_type := "sale"; journal_company_id := 2 |};
    {| journal_key := 4; journal_type := "purchase";
       journal_company_id := 2 |} ].

(** A customer invoice of company A to company B. *)
Definition invoice_A (number : string) (s : move_state) (untaxed total : Z)
  : account_move :=
  {| name := number; move_type := out_invoice; state := s;
     company_id := company_A; partner_id := partner_B; currency_id := EUR;
     journal_id := Some 1; ref := EmptyString; invoice_date := "2023-01-31";
     narration := EmptyString; invoice_origin := EmptyString;
     auto_generated := false; auto_invoice_id := None;
     amount_untaxed := untaxed; amount_total := total; message_ids := [] |}.

(** A vendor bill of company B that mirrors the document [source] of A. *)
Definition bill_B (auto_validation : bool) (number : string) (s : move_state)
  (source : Z) (cur : res_currency) (untaxed total : Z) : account_move :=
  {| name := number; move_type := in_invoice; state := s;
     company_id := company_B auto_validation; partner_id := partner_A;
     currency_id := cur;
     journal_id := Some 4; ref := "INV/0001"; invoice_date := "2023-01-31";
     narration := EmptyString;
     invoice_origin := "Company A - Invoice: INV/0001";
     auto_generated := true; auto_invoice_id := Some source;
     amount_untaxed := untaxed; amount_total := total; message_ids := [] |}.

Definition product_line (move : Z) (p : option product_product)
  (label : string) (qty price : Z) : account_move_line :=
  {| move_id := move; line_company_id := 1; display_type := None;
     product_id := p; line_name := label; product_uom_id := 1;
     quantity := qty; price_unit := price; discount := 0; sequence := 10;
     auto_invoice_line_id := None |}.

Definition books (auto_validation : bool) (ms : list (Z * account_move))
  (ls : list (Z * account_move_line)) : db :=
  {| moves := ms; move_lines := ls;
     companies := [company_A; company_B auto_validation];
     journals := all_journals;
     next_move_id := 100; next_line_id := 100 |}.

(** One draft invoice of 200.00 with one line, 230.00 with tax when [taxed]. *)
Definition one_invoice (auto_validation taxed : bool) : db :=
  books auto_validation
    [(1, invoice_A "INV/0001" draft 20000 (if taxed then 23000 else 20000))]
    [(1, product_line 1 (Some service) "Service" 2 10000)].

(** Two draft invoices; the line of the first one has no product. *)
Definition two_invoices : db :=
  books true
    [(1, invoice_A "INV/0001" draft 20000 20000);
     (2, invoice_A "INV/0002" draft 5000 5000)]
    [(1, product_line 1 None "Consulting" 2 10000);
     (2, product_line 2 (Some service) "Service" 1 5000)].

(** A posted invoice and its mirror in B, in state [s], in currency [cur] and
    with untaxed total [untaxed]. *)
Definition mirrored (s : move_state) (cur : res_currency) (untaxed : Z) : db :=
  books true
    [(1, invoice_A "INV/0001" posted 20000 20000);
     (2, bill_B true "BILL/0007" s 1 cur untaxed untaxed)]
    [(1, product_line 1 (Some service) "Service" 2 10000);
     (2, product_line 2 (Some service) "Service" 2 10000)].

(** A posted invoice with two draft mirrors in B, as two concurrent builds
    would leave them. *)
Definition mirrored_twice : db :=
  books true
    [(1, invoice_A "INV/0001" posted 20000 20000);
     (2, bill_B true "BILL/0007" draft 1 EUR 20000 20000);
     (3, bill_B true "BILL/0008" draft 1 EUR 20000 20000)]
    [(1, product_line 1 (Some service) "Service" 2 10000)].

(** Two posted invoices of A and their draft mirrors in B; the mirror of the
    second one was built with an untaxed total of 40.00 for a source of
    50.00. *)
Definition two_mirrored : db :=
  books true
    [(1, invoice_A "INV/0001" posted 20000 20000);
     (2, bill_B true "BILL/0007" draft 1 EUR 20000 20000);
     (4, invoice_A "INV/0004" posted 5000 5000);
     (5, bill_B true "BILL/0008" draft 4 EUR 4000 4000)]
    [(1, product_line 1 (Some service) "Service" 2 10000);
     (2, product_line 2 (Some service) "Service" 2 10000);
     (4, product_line 4 (Some service) "Service" 1 5000);
     (5, product_line 5 (Some service) "Service" 1 4000)].

(** One draft invoice whose line has no product, in books where company B
    has no purchase journal. *)
Definition no_purchase_journal : db :=
  {| moves := [(1, invoice_A "INV/0001" draft 20000 20000)];
     move_lines := [(1, product_line 1 None "Consulting" 2 10000)];
     companies := [company_A; company_B true];
     journals :=
       [ {| journal_key := 1; journal_type := "sale";
            journal_company_id := 1 |};
         {| journal_key := 3; journal_type := "sale";
            journal_company_id := 2 |} ];
     next_move_id := 100; next_line_id := 100 |}.






(** The value an outcome returns, [a] when it raises. *)
Definition value_of {A} (o : outcome A) (a : A) : A :=
  match o with
  | Ok x _ => x
  | Raise _ _ => a
  end.

(** The store an outcome carries. *)
Definition store_of {A} (o : outcome A) : db :=
  match o with
  | Ok _ st => st
  | Raise _ st => st
  end.

End Demo.

(** ** Well-formed stores *)

Fixpoint unique_ids (ids : list Z) : bool :=
  match ids with
  | [] => true
  | i :: ids' => negb (mem i ids') && unique_ids ids'
  end.

(** Ids are unique and were all drawn from the sequence. *)
Definition db_ok (st : db) : bool :=
  unique_ids (map fst (moves st))
  && forallb (fun i => i <? next_move_id st) (map fst (moves st)).

(** The mirrors of [src] in the company [dest_key], in any state. *)
Definition mirrors (st : db) (src dest_key : Z) : list (Z * account_move) :=
  filter (fun r => mirror_of src dest_key (snd r)) (moves st).




(** [sub] occurs in [s]. *)
Definition contains (sub s : string) : Prop :=
  exists pre post, s = pre +++ sub +++ post.

(** The same, decided. *)
Fixpoint starts_with (sub s : string) : bool :=
  match sub, s with
  | EmptyString, _ => true
  | String a sub', String b s' => Ascii.eqb a b && starts_with sub' s'
  | String _ _, EmptyString => false
  end.

Fixpoint occurs (sub s : string) : bool :=
  starts_with sub s
  || match s with
     | EmptyString => false
     | String _ s' => occurs sub s'
     end.

Section Specifications.

Context {host : Host}.

(** The amounts of a mirror and of its source agree for [write]. *)
Definition untaxed_agree (m src : account_move) : bool :=
  float_compare (amount_untaxed m) (amount_untaxed src)
    (precision_rounding (rounding (currency_id m))) =? 0.

(** What the check of [write] needs to read for the record [i]: the record,
    and its source when it is a mirror. *)
Definition checkable (st : db) (i : Z) : Prop :=
  exists m, lookup i (moves st) = Some m
            /\ forall s, auto_invoice_id m = Some s ->
                         exists src, lookup s (moves st) = Some src.

(** The record [i] is a mirror whose untaxed total diverges from its
    source's. *)
Definition diverges (st : db) (i : Z) : Prop :=
  exists m s src,
    lookup i (moves st) = Some m /\ auto_invoice_id m = Some s
    /\ lookup s (moves st) = Some src /\ untaxed_agree m src = false.

(** The totals of a source and of its new mirror agree for the builder. *)
Definition totals_agree (src_total dest_total : Z) : bool :=
  float_compare src_total dest_total
    (precision_digits (precision_get "Account")) =? 0.

(** The mirror as the builder leaves it: the header [data] with the totals
    [u] and [t] the ledger has computed, then posted or flagged. *)
Definition mirror_record (dest : res_company) (src : account_move) (u t : Z)
  (data : account_move) : account_move :=
  if invoice_auto_validation dest && totals_agree (amount_total src) t
  then set_state posted (set_amounts u t data)
  else if negb (totals_agree (amount_total src) t)
       then add_message
              (warning_body t (name src) (company_name (company_id src))
                            (amount_total src))
              (set_amounts u t data)
       else set_amounts u t data.

(** The mirrors of [src] in the company [dest_key] that satisfy [q], in a
    table of moves. *)
Definition mirrors_where (q : account_move -> bool)
  (tbl : list (Z * account_move)) (src dest_key : Z)
  : list (Z * account_move) :=
  filter (fun r => mirror_of src dest_key (snd r) && q (snd r)) tbl.

Definition is_posted (m : account_move) : bool :=
  move_state_eqb (state m) posted.

(** The company [_find_company_from_invoice_partner] resolves for the
    document [m]. *)
Definition company_of_partner (st : db) (m : account_move)
  : option res_company :=
  find (fun c => partner_key (company_partner_id c)
                 =? commercial_partner_id (partner_id m)) (companies st).







(** Every line of [self] that is not a section or a note has a product. *)
Definition lines_complete (st : db) (self : Z) : bool :=
  forallb (fun r =>
             implb ((move_id (snd r) =? self)
                    && negb (is_set (display_type (snd r))))
                   (is_set (product_id (snd r))))
          (move_lines st).

(** [l'] is the line [l], up to the clearing of a dangling
    [auto_invoice_line_id]. *)
Definition same_line (l l' : account_move_line) : Prop :=
  move_id l' = move_id l /\ display_type l' = display_type l
  /\ product_id l' = product_id l /\ line_name l' = line_name l.

End Specifications.

(** * Properties *)

Ltac monad_unfold := cbv beta iota delta [bind ret gets modify raise].

(** ** The monad *)

Lemma bind_Ok {A B} (m : M A) (f : A -> M B) st {a st1} :
  m st = Ok a st1 -> bind m f st = f a st1.
Proof. unfold bind; intros ->; reflexivity. Qed.

Lemma bind_Raise {A B} (m : M A) (f : A -> M B) st {e st1} :
  m st = Raise e st1 -> bind m f st = Raise e st1.
Proof. unfold bind; intros ->; reflexivity. Qed.

Lemma bind_inv_Ok {A B} (m : M A) (f : A -> M B) st b st2 :
  bind m f st = Ok b st2 ->
  exists a st1, m st = Ok a st1 /\ f a st1 = Ok b st2.
Proof.
  unfold bind; destruct (m st) as [a st1|e st1]; intros H.
  - exists a, st1; auto.
  - discriminate.
Qed.

Lemma for_each_app {A} (xs ys : list A) (body : A -> M unit) st :
  for_each (xs ++ ys) body st
  = (for_each xs body ;;; for_each ys body) st.
Proof.
  revert st; induction xs as [|x xs IH]; intros st; simpl.
  - reflexivity.
  - unfold bind. destruct (body x st) as [[] st1|e st1]; [|reflexivity].
    rewrite IH. reflexivity.
Qed.

(** A loop stops at the first iteration that raises. *)
Lemma for_each_raise {A} (pre : list A) x rest (body : A -> M unit)
  st st1 e st2 :
  for_each pre body st = Ok tt st1 ->
  body x st1 = Raise e st2 ->
  for_each (pre ++ x :: rest) body st = Raise e st2.
Proof.
  intros Hpre Hx. rewrite for_each_app, (bind_Ok _ _ _ Hpre). simpl.
  apply bind_Raise, Hx.
Qed.

(** ** Tables *)

Lemma mem_In i ids : mem i ids = true <-> In i ids.
Proof.
  unfold mem. rewrite existsb_exists. split.
  - intros (x & Hx & E). apply Z.eqb_eq in E. now subst.
  - intros H. exists i. split; auto. apply Z.eqb_refl.
Qed.

Lemma mem_single i j : mem i [j] = (i =? j).
Proof. unfold mem; simpl. now rewrite orb_false_r. Qed.

Lemma lookup_In {A} i (tbl : list (Z * A)) a :
  lookup i tbl = Some a -> In (i, a) tbl.
Proof.
  induction tbl as [|[j b] tbl IH]; simpl; [discriminate|].
  destruct (j =? i) eqn:E.
  - intros [= ->]. apply Z.eqb_eq in E. subst. now left.
  - intros H. right. auto.
Qed.

Lemma lookup_None {A} i (tbl : list (Z * A)) :
  lookup i tbl = None <-> ~ In i (map fst tbl).
Proof.
  induction tbl as [|[j b] tbl IH]; simpl.
  - tauto.
  - destruct (j =? i) eqn:E.
    + apply Z.eqb_eq in E. split; [discriminate|]. intros H. destruct H. auto.
    + apply Z.eqb_neq in E. rewrite IH. tauto.
Qed.

Lemma In_lookup_unique {A} i (tbl : list (Z * A)) a :
  unique_ids (map fst tbl) = true -> In (i, a) tbl -> lookup i tbl = Some a.
Proof.
  induction tbl as [|[j b] tbl IH]; simpl; [tauto|].
  intros U [E|H].
  - inversion E; subst. now rewrite Z.eqb_refl.
  - apply andb_prop in U as [U1 U2].
    destruct (j =? i) eqn:E.
    + apply Z.eqb_eq in E. subst.
      apply negb_true_iff in U1.
      assert (mem i (map fst tbl) = true) as C
          by (apply mem_In, (in_map fst _ _ H)).
      congruence.
    + auto.
Qed.

Lemma lookup_app {A} i (t1 t2 : list (Z * A)) :
  lookup i (t1 ++ t2)
  = match lookup i t1 with Some a => Some a | None => lookup i t2 end.
Proof.
  induction t1 as [|[j b] t1 IH]; simpl; auto.
  destruct (j =? i); auto.
Qed.

Lemma lookup_update_rows {A} i ids (f : A -> A) tbl :
  lookup i (update_rows ids f tbl)
  = option_map (fun a => if mem i ids then f a else a) (lookup i tbl).
Proof.
  induction tbl as [|[j b] tbl IH]; simpl; auto.
  destruct (mem j ids) eqn:Ej; simpl; destruct (j =? i) eqn:E; auto;
    apply Z.eqb_eq in E; subst; simpl; rewrite Ej; reflexivity.
Qed.

Lemma lookup_delete_rows {A} i ids (tbl : list (Z * A)) :
  lookup i (delete_rows ids tbl)
  = if mem i ids then None else lookup i tbl.
Proof.
  induction tbl as [|[j b] tbl IH]; simpl.
  - now destruct (mem i ids).
  - destruct (mem j ids) eqn:Ej; simpl; rewrite ?IH;
      destruct (j =? i) eqn:E; auto;
      apply Z.eqb_eq in E; subst; rewrite Ej; reflexivity.
Qed.

Lemma lookup_map_snd {A} i (g : A -> A) (tbl : list (Z * A)) :
  lookup i (map (fun r => (fst r, g (snd r))) tbl)
  = option_map g (lookup i tbl).
Proof.
  induction tbl as [|[j b] tbl IH]; simpl; auto.
  destruct (j =? i); auto.
Qed.


(** ** Texts *)

Lemma cat_assoc a b c : (a +++ b) +++ c = a +++ (b +++ c).
Proof.
  unfold cat. induction a as [|x a IH]; simpl; [reflexivity|].
  now rewrite IH.
Qed.

Lemma contains_here pre sub post : contains sub (pre +++ sub +++ post).
Proof. now exists pre, post. Qed.

Lemma contains_later pre sub s : contains sub s -> contains sub (pre +++ s).
Proof.
  intros (a & b & ->). exists (pre +++ a), b. now rewrite cat_assoc.
Qed.

Lemma cat_empty_r a : a +++ EmptyString = a.
Proof.
  unfold cat. induction a as [|x a IH]; simpl; [reflexivity|].
  now rewrite IH.
Qed.

Lemma contains_end pre sub : contains sub (pre +++ sub).
Proof. exists pre, EmptyString. now rewrite cat_empty_r. Qed.

Lemma starts_with_cat sub post : starts_with sub (sub +++ post) = true.
Proof.
  induction sub as [|a sub IH]; [reflexivity|].
  cbn [cat String.append starts_with] in *. unfold cat in IH.
  now rewrite Ascii.eqb_refl, IH.
Qed.

Lemma contains_occurs sub s : contains sub s -> occurs sub s = true.
Proof.
  intros (pre & post & ->).
  induction pre as [|a pre IH].
  - change (EmptyString +++ sub +++ post) with (sub +++ post).
    destruct (sub +++ post) eqn:E; cbn [occurs]; rewrite <- E;
      now rewrite starts_with_cat.
  - change (String a pre +++ sub +++ post)
      with (String a (pre +++ sub +++ post)).
    cbn [occurs]. rewrite IH. apply orb_true_r.
Qed.

(** What the error and note texts of the module name. *)
Lemma draft_error_contents invoice_name partner_name :
  contains invoice_name (draft_error invoice_name partner_name)
  /\ contains partner_name (draft_error invoice_name partner_name).
Proof.
  unfold draft_error. split.
  - do 3 apply contains_later. apply contains_here.
  - do 5 apply contains_later. apply contains_end.
Qed.

Lemma write_error_contents source_name :
  contains source_name (write_error source_name).
Proof. unfold write_error. do 2 apply contains_later. apply contains_here. Qed.

Lemma line_error_contents line_name :
  contains line_name (line_error line_name).
Proof. unfold line_error. apply contains_here. Qed.


Section Properties.

Context {host : Host}.

(** ** Reads leave the store alone *)

Lemma browse_Ok i st m st' :
  browse i st = Ok m st' -> lookup i (moves st) = Some m /\ st' = st.
Proof.
  unfold browse. destruct (lookup i (moves st)); intros [= <- <-] || discriminate.
  auto.
Qed.

Lemma browse_lookup i st {m} :
  lookup i (moves st) = Some m -> browse i st = Ok m st.
Proof. unfold browse. now intros ->. Qed.

Lemma filtered_Ok p self st :
  (forall i, In i self -> lookup i (moves st) <> None) ->
  exists ids, filtered p self st = Ok ids st
              /\ (forall i, In i ids -> In i self).
Proof.
  induction self as [|i self IH]; intros H; simpl.
  - exists []. split; auto.
  - destruct (lookup i (moves st)) as [m|] eqn:E.
    + destruct IH as (ids & Hids & Hsub).
      { intros j Hj. apply H. now right. }
      rewrite (bind_Ok _ _ _ (browse_lookup _ _ E)).
      rewrite (bind_Ok _ _ _ Hids). unfold ret.
      eexists; split; [reflexivity|].
      intros j. destruct (p m); simpl; intuition.
    + exfalso. apply (H i); simpl; auto.
Qed.


(** ** C4: the move-type mapping *)

(** C4.  For each of the four supported move types the destination type is
    defined and its own destination type is the original one (customer
    invoice <-> vendor invoice, customer refund <-> vendor refund), so the
    mapping is an involution on the supported types; no other move type is
    mapped, and the mapping never leaves the supported types. *)
Theorem destination_invoice_type_involution (m : account_move) :
  (in_types (move_type m) supported_types = true ->
   exists t,
     _get_destination_invoice_type m = Some t
     /\ in_types t supported_types = true
     /\ t <> move_type m
     /\ forall m', move_type m' = t ->
                   _get_destination_invoice_type m' = Some (move_type m))
  /\ (in_types (move_type m) supported_types = false ->
      _get_destination_invoice_type m = None)
  /\ (_get_destination_invoice_type m = Some out_invoice
      <-> move_type m = in_invoice)
  /\ (_get_destination_invoice_type m = Some in_invoice
      <-> move_type m = out_invoice)
  /\ (_get_destination_invoice_type m = Some out_refund
      <-> move_type m = in_refund)
  /\ (_get_destination_invoice_type m = Some in_refund
      <-> move_type m = out_refund).
Proof.
  unfold _get_destination_invoice_type.
  destruct (move_type m) eqn:E; simpl;
    repeat split; try discriminate; try congruence;
    try (intros _; eexists; repeat split; try reflexivity; try discriminate;
         intros m' ->; reflexivity).
Qed.

(** ** C9: the reset guard *)

Lemma opt_eqb_true a b : opt_eqb a b = true <-> a = Some b.
Proof.
  destruct a as [x|]; simpl.
  - rewrite Z.eqb_eq. split; congruence.
  - split; discriminate.
Qed.

Lemma move_state_eqb_true a b : move_state_eqb a b = true <-> a = b.
Proof. destruct a, b; simpl; split; congruence. Qed.

Lemma posted_mirror_of_true move m :
  posted_mirror_of move m = true
  <-> auto_invoice_id m = Some move /\ state m = posted.
Proof.
  unfold posted_mirror_of.
  now rewrite andb_true_iff, opt_eqb_true, move_state_eqb_true.
Qed.

(** The check [button_draft] makes for one document: it raises for the first
    posted mirror of the document, and passes when there is none. *)
Lemma button_draft_check_spec st move :
  unique_ids (map fst (moves st)) = true ->
  (exists i m,
      lookup i (moves st) = Some m
      /\ auto_invoice_id m = Some move /\ state m = posted
      /\ button_draft_check move st
         = Raise (UserError (draft_error (name m)
                               (display_name (partner_id m)))) st)
  \/ ((forall i m, lookup i (moves st) = Some m ->
                   posted_mirror_of move m = false)
      /\ button_draft_check move st = Ok tt st).
Proof.
  intros U. unfold button_draft_check, search_limit_1, gets, bind.
  destruct (find _ (moves st)) as [[i m]|] eqn:F; simpl.
  - left. apply find_some in F as [Hin Hp]. simpl in Hp.
    apply posted_mirror_of_true in Hp as [Ha Hs].
    exists i, m. repeat split; auto.
    + now apply In_lookup_unique.
    + unfold browse. now rewrite (In_lookup_unique _ _ _ U Hin).
  - right. split; [|reflexivity].
    intros i m L. apply lookup_In in L.
    apply (find_none _ _ F) in L. exact L.
Qed.

Lemma button_draft_loop_raises st self d i m :
  unique_ids (map fst (moves st)) = true ->
  In d self ->
  lookup i (moves st) = Some m ->
  auto_invoice_id m = Some d ->
  state m = posted ->
  exists d' i' m',
    In d' self
    /\ lookup i' (moves st) = Some m'
    /\ auto_invoice_id m' = Some d'
    /\ state m' = posted
    /\ (self = [d] -> d' = d)
    /\ for_each self button_draft_check st
       = Raise (UserError (draft_error (name m')
                                       (display_name (partner_id m')))) st.
Proof.
  intros U Hd L Ha Hs.
  induction self as [|x self IH]; [destruct Hd|].
  simpl for_each.
  destruct (button_draft_check_spec st x U)
    as [(i0 & m0 & C1 & C2 & C3 & C4)|[C1 C2]].
  - exists x, i0, m0. repeat split; auto.
    + now left.
    + now intros [= ->].
    + now apply bind_Raise.
  - destruct Hd as [->|Hd].
    + exfalso. specialize (C1 i m L).
      assert (posted_mirror_of d m = true) by now apply posted_mirror_of_true.
      congruence.
    + destruct (IH Hd) as (d' & i' & m' & G1 & G2 & G3 & G4 & G5 & G6).
      exists d', i', m'. repeat split; auto.
      * now right.
      * intros [= -> ->]. destruct Hd.
      * now rewrite (bind_Ok _ _ _ C2).
Qed.

(** C9.  If a posted mirror references one of the documents that are being
    reset to draft, [button_draft] raises the error that names a posted
    mirror and its partner (the text of the error contains the name of that
    mirror and the display name of its partner), before any document is
    reset: the store is unchanged (none of the documents is in draft state
    because of the call).  The mirror named is a posted mirror of the first
    document of the recordset that has one; for the reset of a single
    document it is a posted mirror of that document. *)
Theorem button_draft_rejected_by_posted_mirror
  (ctx : context) (self : list Z) (st : db) (d i : Z) (m : account_move) :
  unique_ids (map fst (moves st)) = true ->
  In d self ->
  lookup i (moves st) = Some m ->
  auto_invoice_id m = Some d ->
  state m = posted ->
  exists d' i' m' msg,
    In d' self
    /\ lookup i' (moves st) = Some m'
    /\ auto_invoice_id m' = Some d'
    /\ state m' = posted
    /\ (self = [d] -> d' = d)
    /\ msg = draft_error (name m') (display_name (partner_id m'))
    /\ contains (name m') msg
    /\ contains (display_name (partner_id m')) msg
    /\ button_draft ctx self st = Raise (UserError msg) st
    /\ transaction (button_draft ctx self) st = Raise (UserError msg) st.
Proof.
  intros U Hd L Ha Hs.
  destruct (button_draft_loop_raises st self d i m U Hd L Ha Hs)
    as (d' & i' & m' & H1 & H2 & H3 & H4 & H5 & H6).
  assert (button_draft ctx self st
          = Raise (UserError (draft_error (name m')
                                (display_name (partner_id m')))) st) as R
      by (unfold button_draft; now apply bind_Raise).
  exists d', i', m', (draft_error (name m') (display_name (partner_id m'))).
  repeat split; auto; try apply draft_error_contents.
  unfold transaction. now rewrite R.
Qed.

(** ** C6: the edit lock *)

Lemma write_check_spec move st m s src :
  lookup move (moves st) = Some m ->
  auto_invoice_id m = Some s ->
  lookup s (moves st) = Some src ->
  write_check move st
  = if untaxed_agree m src then Ok tt st
    else Raise (UserError (write_error (name src))) st.
Proof.
  intros L A S. unfold write_check, untaxed_agree.
  rewrite (bind_Ok _ _ _ (browse_lookup _ _ L)), A.
  rewrite (bind_Ok _ _ _ (browse_lookup _ _ S)).
  now destruct (_ =? 0).
Qed.

Lemma write_single_spec ctx i v st m s src :
  lookup i (moves (with_moves (update_rows [i] v) st)) = Some m ->
  auto_invoice_id m = Some s ->
  lookup s (moves (with_moves (update_rows [i] v) st)) = Some src ->
  write ctx [i] v st
  = if skip_check_amount_difference ctx || untaxed_agree m src
    then Ok tt (with_moves (update_rows [i] v) st)
    else Raise (UserError (write_error (name src)))
               (with_moves (update_rows [i] v) st).
Proof.
  intros L A S. unfold write, super_write, modify.
  unfold bind at 1.
  destruct (skip_check_amount_difference ctx); [reflexivity|]. simpl orb.
  simpl filtered. unfold bind, ret, browse. rewrite L, A. simpl is_set.
  fold (browse i). fold (@ret unit tt).
  change ((write_check i ;;; ret tt) (with_moves (update_rows [i] v) st)
          = if untaxed_agree m src
            then Ok tt (with_moves (update_rows [i] v) st)
            else Raise (UserError (write_error (name src)))
                       (with_moves (update_rows [i] v) st)).
  unfold bind. rewrite (write_check_spec _ _ _ _ _ L A S).
  now destruct (untaxed_agree m src).
Qed.

(** The check of [write] over a recordset: it passes when no mirror of the
    recordset diverges, and otherwise raises for the first one that does,
    naming its source. *)
Lemma write_loop_cases st self :
  (forall i, In i self -> checkable st i) ->
  exists todo,
    filtered (fun x => is_set (auto_invoice_id x)) self st = Ok todo st
    /\ ((for_each todo write_check st = Ok tt st
         /\ forall i, In i self -> ~ diverges st i)
        \/ exists pre i rest m s src,
             self = pre ++ i :: rest
             /\ (forall j, In j pre -> ~ diverges st j)
             /\ lookup i (moves st) = Some m
             /\ auto_invoice_id m = Some s
             /\ lookup s (moves st) = Some src
             /\ untaxed_agree m src = false
             /\ for_each todo write_check st
                = Raise (UserError (write_error (name src))) st).
Proof.
  induction self as [|x self IH]; intros Hc.
  - exists []. split; [reflexivity|]. left. split; [reflexivity|].
    intros i [].
  - destruct (IH (fun j Hj => Hc j (or_intror Hj))) as (todo & Ft & Cases).
    destruct (Hc x (or_introl eq_refl)) as (m & L & Hs).
    destruct (auto_invoice_id m) as [s|] eqn:A.
    + destruct (Hs s eq_refl) as [src Ls].
      exists (x :: todo). split.
      { cbn [filtered]. rewrite (bind_Ok _ _ _ (browse_lookup _ _ L)).
        rewrite (bind_Ok _ _ _ Ft). now rewrite A. }
      assert (for_each (x :: todo) write_check st
              = if untaxed_agree m src then for_each todo write_check st
                else Raise (UserError (write_error (name src))) st) as Eq.
      { cbn [for_each]. unfold bind.
        rewrite (write_check_spec x st m s src L A Ls).
        now destruct (untaxed_agree m src). }
      rewrite Eq. clear Eq.
      destruct (untaxed_agree m src) eqn:U.
      * destruct Cases
          as [[E N]|(pre & i & rest & mi & si & srci & E & N & G)].
        -- left. split; [exact E|]. intros j [<-|Hj]; [|now apply N].
           intros (m' & s' & src' & L' & A' & Ls' & U'). congruence.
        -- right. exists (x :: pre), i, rest, mi, si, srci.
           split; [now rewrite E|]. split; [|exact G].
           intros j [<-|Hj]; [|now apply N].
           intros (m' & s' & src' & L' & A' & Ls' & U'). congruence.
      * right. exists [], x, self, m, s, src. repeat split; auto.
    + exists todo. split.
      { cbn [filtered]. rewrite (bind_Ok _ _ _ (browse_lookup _ _ L)).
        rewrite (bind_Ok _ _ _ Ft). now rewrite A. }
      assert (~ diverges st x) as Nx.
      { intros (m' & s' & src' & L' & A' & _). congruence. }
      destruct Cases as [[E N]|(pre & i & rest & mi & si & srci & E & N & G)].
      * left. split; [exact E|]. intros j [<-|Hj]; [exact Nx|now apply N].
      * right. exists (x :: pre), i, rest, mi, si, srci.
        split; [now rewrite E|]. split; [|exact G].
        intros j [<-|Hj]; [exact Nx|now apply N].
Qed.

(** C6 (amended).  A write on a recordset whose mirrors (the documents with
    [auto_invoice_id] set) have their source in the books: when the context
    carries [skip_check_amount_difference] the write succeeds; otherwise it
    is rejected if and only if, after the write, the untaxed total of one of
    the mirrors of the recordset differs from the untaxed total of its
    source at the rounding of the mirror's own currency, and it succeeds if
    and only if there is no such mirror.  The error names the source of the
    first such mirror of the recordset (its text contains the name of that
    source); the write is accepted or rejected as a whole, on the store the
    host's write has produced.  For a single mirror: the write is rejected,
    naming its source, if and only if its own total differs from the one of
    its source. *)
Theorem write_rejected_iff_untaxed_diverges
  (ctx : context) (self : list Z) (v : vals) (st : db) :
  (forall i, In i self ->
     checkable (with_moves (update_rows self v) st) i) ->
  (skip_check_amount_difference ctx = true ->
   write ctx self v st = Ok tt (with_moves (update_rows self v) st))
  /\ (skip_check_amount_difference ctx = false ->
      (write ctx self v st = Ok tt (with_moves (update_rows self v) st)
       <-> forall i, In i self ->
             ~ diverges (with_moves (update_rows self v) st) i)
      /\ ((exists e st', write ctx self v st = Raise e st')
          <-> exists i, In i self
                        /\ diverges (with_moves (update_rows self v) st) i)
      /\ (forall e st',
            write ctx self v st = Raise e st' ->
            st' = with_moves (update_rows self v) st
            /\ exists pre i rest m s src,
                 self = pre ++ i :: rest
                 /\ (forall j, In j pre ->
                       ~ diverges (with_moves (update_rows self v) st) j)
                 /\ lookup i (moves (with_moves (update_rows self v) st))
                    = Some m
                 /\ auto_invoice_id m = Some s
                 /\ lookup s (moves (with_moves (update_rows self v) st))
                    = Some src
                 /\ float_compare (amount_untaxed m) (amount_untaxed src)
                      (precision_rounding (rounding (currency_id m))) <> 0
                 /\ e = UserError (write_error (name src))
                 /\ contains (name src) (write_error (name src)))
      /\ (forall i m s src,
            self = [i] ->
            lookup i (moves (with_moves (update_rows self v) st)) = Some m ->
            auto_invoice_id m = Some s ->
            lookup s (moves (with_moves (update_rows self v) st))
            = Some src ->
            (write ctx self v st
             = Raise (UserError (write_error (name src)))
                     (with_moves (update_rows self v) st)
             <-> float_compare (amount_untaxed m) (amount_untaxed src)
                   (precision_rounding (rounding (currency_id m))) <> 0)
            /\ (write ctx self v st
                = Ok tt (with_moves (update_rows self v) st)
                <-> float_compare (amount_untaxed m) (amount_untaxed src)
                      (precision_rounding (rounding (currency_id m))) = 0))).
Proof.
  intros Hc. set (st1 := with_moves (update_rows self v) st) in *.
  split.
  { intros Sk. unfold write, super_write, modify. unfold bind at 1.
    now rewrite Sk. }
  intros Sk.
  destruct (write_loop_cases st1 self Hc) as (todo & Ft & Cases).
  assert (write ctx self v st = for_each todo write_check st1) as W.
  { unfold write, super_write, modify. unfold bind at 1. fold st1.
    rewrite Sk. now rewrite (bind_Ok _ _ _ Ft). }
  assert (forall i m s src,
            lookup i (moves st1) = Some m -> auto_invoice_id m = Some s ->
            lookup s (moves st1) = Some src ->
            untaxed_agree m src = false -> diverges st1 i) as Dv
      by (intros i m s src; exists m, s, src; auto).
  split; [|split; [|split]].
  - rewrite W.
    destruct Cases as [[E N]|(pre & i & rest & m & s & src & Es & N & L & A
                              & Ls & U & E)].
    + split; auto.
    + split; [rewrite E; discriminate|]. intros H. exfalso.
      apply (H i); [rewrite Es; apply in_elt|]. now apply (Dv i m s src).
  - rewrite W.
    destruct Cases as [[E N]|(pre & i & rest & m & s & src & Es & N & L & A
                              & Ls & U & E)].
    + split.
      * intros (e & st' & R). rewrite E in R. discriminate.
      * intros (i & Hi & D). now apply N in D.
    + split.
      * intros _. exists i. split; [rewrite Es; apply in_elt|].
        now apply (Dv i m s src).
      * intros _. eexists. eexists. exact E.
  - intros e st' R. rewrite W in R.
    destruct Cases as [[E N]|(pre & i & rest & m & s & src & Es & N & L & A
                              & Ls & U & E)];
      rewrite E in R; [discriminate|]. injection R as <- <-.
    split; [reflexivity|]. exists pre, i, rest, m, s, src.
    repeat split; auto using write_error_contents.
    unfold untaxed_agree in U. now apply Z.eqb_neq in U.
  - intros i m s src -> L A Ls. fold st1.
    rewrite (write_single_spec ctx i v st m s src L A Ls). fold st1.
    rewrite Sk. unfold untaxed_agree. cbn [orb].
    destruct (Z.eqb_spec
                (float_compare (amount_untaxed m) (amount_untaxed src)
                   (precision_rounding (rounding (currency_id m)))) 0)
      as [E|E]; split; split; try congruence; try discriminate; auto.
Qed.

(** ** The builder, step by step *)

Lemma for_each_read_only {A} (xs : list A) (body : A -> M unit) st :
  (forall x, In x xs ->
     body x st = Ok tt st \/ exists e, body x st = Raise e st) ->
  for_each xs body st = Ok tt st
  \/ exists e, for_each xs body st = Raise e st.
Proof.
  induction xs as [|x xs IH]; intros H; simpl.
  - now left.
  - destruct (H x (or_introl eq_refl)) as [E|[e E]].
    + rewrite (bind_Ok _ _ _ E). apply IH. intros y Hy. apply H. now right.
    + right. exists e. now apply bind_Raise.
Qed.

Lemma check_intercompany_product_read_only self dest st :
  _check_intercompany_product self dest st = Ok tt st
  \/ exists e, _check_intercompany_product self dest st = Raise e st.
Proof.
  unfold _check_intercompany_product.
  destruct (company_share_product dest); [now left|].
  unfold invoice_line_ids, gets, bind at 1.
  apply for_each_read_only. intros [lid l] _. simpl.
  destruct (product_id l) as [p|]; [|now left].
  destruct (check_access_rule_read dest p); [now left|].
  right. eexists. reflexivity.
Qed.

Lemma check_intercompany_product_Ok self dest st u st' :
  _check_intercompany_product self dest st = Ok u st' -> st' = st.
Proof.
  destruct (check_intercompany_product_read_only self dest st) as [E|[e E]];
    rewrite E; congruence.
Qed.

Lemma prepare_invoice_data_Ok self dest st data st' :
  _prepare_invoice_data self dest st = Ok data st' ->
  st' = st
  /\ exists src,
      lookup self (moves st) = Some src
      /\ state data = draft
      /\ auto_generated data = true
      /\ auto_invoice_id data = Some self
      /\ company_id data = dest
      /\ partner_id data = company_partner_id (company_id src)
      /\ message_ids data = []
      /\ ref data = name src
      /\ invoice_origin data
         = company_name (company_id src) +++ " - Invoice: " +++ name src.
Proof.
  unfold _prepare_invoice_data. intros H.
  apply bind_inv_Ok in H as (src & st1 & Hb & H).
  apply browse_Ok in Hb as [L ->].
  unfold gets, bind in H.
  destruct (search_journal _ dest st) as [j|]; [|discriminate].
  inversion H; subst. split; auto.
  exists src. simpl. repeat split; auto.
Qed.

Lemma search_mirrors self dest st :
  search (mirror_of self (company_key dest)) st
  = Ok (map fst (mirrors st self (company_key dest))) st.
Proof. reflexivity. Qed.

(** The reclamation step when exactly one mirror is found. *)
Lemma reclaim_one self dest st i m :
  map fst (mirrors st self (company_key dest)) = [i] ->
  lookup i (moves st) = Some m ->
  reclaim_stale_mirror self dest st
  = if state_in (state m) [draft; cancel]
    then Ok (Some (name m)) (unlink_db [i] st)
    else Ok None st.
Proof.
  intros F L. unfold reclaim_stale_mirror.
  rewrite (bind_Ok _ _ _ (search_mirrors self dest st)), F.
  rewrite (bind_Ok _ _ _ (browse_lookup _ _ L)).
  now destruct (state_in (state m) [draft; cancel]).
Qed.

Lemma reclaim_none self dest st :
  map fst (mirrors st self (company_key dest)) = [] ->
  reclaim_stale_mirror self dest st = Ok None st.
Proof.
  intros F. unfold reclaim_stale_mirror.
  now rewrite (bind_Ok _ _ _ (search_mirrors self dest st)), F.
Qed.

Lemma reclaim_many self dest st i j rest :
  map fst (mirrors st self (company_key dest)) = i :: j :: rest ->
  reclaim_stale_mirror self dest st
  = Raise (ExpectedSingleton (i :: j :: rest)) st.
Proof.
  intros F. unfold reclaim_stale_mirror.
  now rewrite (bind_Ok _ _ _ (search_mirrors self dest st)), F.
Qed.

Lemma In_map_fst_lookup {A} i (tbl : list (Z * A)) :
  In i (map fst tbl) -> exists a, lookup i tbl = Some a.
Proof.
  intros H. destruct (lookup i tbl) as [a|] eqn:E; [now exists a|].
  now apply lookup_None in E.
Qed.

Lemma mirrors_incl st self k :
  incl (mirrors st self k) (moves st).
Proof. intros r H. apply filter_In in H. tauto. Qed.

(** ** C10: the reclamation step expects at most one mirror *)

(** C10.  The reclamation step searches every mirror of (source, destination
    company) and reads the state of the result as of one record.  With at
    most one such mirror the step returns (the singleton error is not
    raised); with two or more the read of the state raises the singleton
    error on the very store it started from, so the builder stops before
    any mirror is deleted or rebuilt: it raises on the unchanged store, and
    what it raises is the singleton error whenever the product check that
    precedes the step passes. *)
Theorem reclamation_expects_at_most_one_mirror
  (post : context -> list Z -> M unit) (ctx : context) (self : Z)
  (dest : res_company) (st : db) :
  ((List.length (mirrors st self (company_key dest)) <= 1)%nat ->
   exists force_number st',
     reclaim_stale_mirror self dest st = Ok force_number st')
  /\ ((2 <= List.length (mirrors st self (company_key dest)))%nat ->
      reclaim_stale_mirror self dest st
      = Raise (ExpectedSingleton
                 (map fst (mirrors st self (company_key dest)))) st
      /\ (exists e,
             _inter_company_create_invoice post ctx self dest st = Raise e st)
      /\ (_check_intercompany_product self dest st = Ok tt st ->
          _inter_company_create_invoice post ctx self dest st
          = Raise (ExpectedSingleton
                     (map fst (mirrors st self (company_key dest)))) st)).
Proof.
  split.
  - intros Hlen.
    destruct (mirrors st self (company_key dest)) as [|[i m] [|r rest]] eqn:F.
    + exists None, st. apply reclaim_none. now rewrite F.
    + assert (In i (map fst (moves st))) as Hin.
      { apply (in_map fst _ (i, m)). apply (mirrors_incl st self (company_key dest)).
        rewrite F. now left. }
      apply In_map_fst_lookup in Hin as [m' L].
      rewrite (reclaim_one self dest st i m'); [|now rewrite F|exact L].
      destruct (state_in (state m') [draft; cancel]);
        eexists; eexists; reflexivity.
    + simpl in Hlen. lia.
  - intros Hlen.
    destruct (mirrors st self (company_key dest)) as [|[i m] [|[j m2] rest]] eqn:F;
      try (simpl in Hlen; lia).
    assert (reclaim_stale_mirror self dest st
            = Raise (ExpectedSingleton (map fst ((i, m) :: (j, m2) :: rest))) st)
      as R by (apply reclaim_many; now rewrite F).
    split; [exact R|].
    unfold _inter_company_create_invoice.
    split.
    + destruct (check_intercompany_product_read_only self dest st) as [E|[e E]].
      * exists (ExpectedSingleton (map fst ((i, m) :: (j, m2) :: rest))).
        rewrite (bind_Ok _ _ _ E). now apply bind_Raise.
      * exists e. now apply bind_Raise.
    + intros E. rewrite (bind_Ok _ _ _ E). now apply bind_Raise.
Qed.

Lemma reclaim_inv self dest st fn st1 :
  reclaim_stale_mirror self dest st = Ok fn st1 ->
  (mirrors st self (company_key dest) = [] /\ fn = None /\ st1 = st)
  \/ exists i m,
       map fst (mirrors st self (company_key dest)) = [i]
       /\ lookup i (moves st) = Some m
       /\ ((state_in (state m) [draft; cancel] = true
            /\ fn = Some (name m) /\ st1 = unlink_db [i] st)
           \/ (state_in (state m) [draft; cancel] = false
               /\ fn = None /\ st1 = st)).
Proof.
  intros H.
  destruct (mirrors st self (company_key dest)) as [|[i m0] [|r rest]] eqn:F.
  - left. rewrite reclaim_none in H by now rewrite F.
    inversion H; auto.
  - right.
    assert (In i (map fst (moves st))) as Hin.
    { apply (in_map fst _ (i, m0)).
      apply (mirrors_incl st self (company_key dest)). rewrite F. now left. }
    apply In_map_fst_lookup in Hin as [m L].
    exists i, m. split; [reflexivity|]. split; [exact L|].
    rewrite (reclaim_one self dest st i m) in H; [|now rewrite F|exact L].
    destruct (state_in (state m) [draft; cancel]);
      inversion H; subst; [left|right]; auto.
  - destruct r as [j m2].
    rewrite (reclaim_many self dest st i j (map fst rest)) in H
      by now rewrite F.
    discriminate.
Qed.

(** ** C5: the line completeness guard *)

Lemma same_line_clear ids l : same_line l (clear_dangling_line ids l).
Proof.
  unfold clear_dangling_line, same_line.
  destruct (auto_invoice_line_id l) as [s|]; [destruct (mem s ids)|];
    simpl; auto.
Qed.

Lemma same_line_refl l : same_line l l.
Proof. unfold same_line; auto. Qed.

(** The lines of a document that is not deleted survive [unlink]. *)
Lemma unlink_keeps_lines i st self lid l :
  self <> i ->
  In (lid, l) (move_lines st) -> move_id l = self ->
  exists l', In (lid, l') (move_lines (unlink_db [i] st)) /\ same_line l l'.
Proof.
  intros N H Hm. unfold unlink_db; cbn [move_lines].
  eexists. split.
  - apply in_map_iff. exists (lid, l). split; [reflexivity|].
    apply filter_In. split; auto. cbn [snd].
    rewrite mem_single, Hm. apply negb_true_iff. now apply Z.eqb_neq.
  - apply same_line_clear.
Qed.

Lemma unlink_lines_from i st lid l' :
  In (lid, l') (move_lines (unlink_db [i] st)) ->
  exists l, In (lid, l) (move_lines st) /\ same_line l l'.
Proof.
  unfold unlink_db; cbn [move_lines]. intros H.
  apply in_map_iff in H as ([lid0 l] & E & H). cbn [fst snd] in E.
  inversion E; subst. apply filter_In in H as [H _].
  exists l. split; auto. apply same_line_clear.
Qed.

Lemma prepare_account_move_line_Ok src_line d dest st md :
  lookup d (moves st) = Some md ->
  exists v, _prepare_account_move_line src_line d dest st = Ok v st.
Proof.
  intros L. unfold _prepare_account_move_line.
  rewrite (bind_Ok _ _ _ (browse_lookup _ _ L)). eexists. reflexivity.
Qed.

(** The loop over the lines raises for the first line without a product. *)
Lemma lines_loop_raises d dest st md (ls : list (Z * account_move_line)) :
  lookup d (moves st) = Some md ->
  (exists r, In r ls /\ product_id (snd r) = None) ->
  exists r0,
    In r0 ls /\ product_id (snd r0) = None
    /\ map_M (fun src_line =>
                match product_id (snd src_line) with
                | None =>
                    raise (UserError (line_error (line_name (snd src_line))))
                | Some _ => _prepare_account_move_line src_line d dest
                end) ls st
       = Raise (UserError (line_error (line_name (snd r0)))) st.
Proof.
  intros L. induction ls as [|r ls IH]; intros (r1 & Hin & Hp).
  - destruct Hin.
  - simpl map_M. destruct (product_id (snd r)) as [p|] eqn:P.
    + destruct Hin as [->|Hin]; [congruence|].
      destruct IH as (r0 & H1 & H2 & H3); [now exists r1|].
      exists r0. repeat split; auto; [now right|].
      destruct (prepare_account_move_line_Ok r d dest st md L) as [v E].
      rewrite (bind_Ok _ _ _ E). now apply bind_Raise.
    + exists r. repeat split; auto. now left.
Qed.

Lemma lookup_created d v st :
  d = next_move_id st ->
  exists md, lookup d (moves (create_db v st)) = Some md.
Proof.
  intros ->. unfold create_db; cbn [moves]. rewrite lookup_app.
  destruct (lookup (next_move_id st) (moves st)) as [x|]; [now exists x|].
  exists v. simpl. now rewrite Z.eqb_refl.
Qed.

Lemma lookup_unlink self i st :
  lookup self (moves (unlink_db [i] st))
  = if self =? i then None
    else option_map (clear_dangling_move [i]) (lookup self (moves st)).
Proof.
  unfold unlink_db; cbn [moves].
  rewrite (lookup_map_snd self (clear_dangling_move [i])).
  rewrite lookup_delete_rows, mem_single.
  now destruct (self =? i).
Qed.

(** The builder once the steps that precede the line loop have passed, for a
    source with a line that has no product. *)
Lemma builder_raises_at_lines post ctx self dest st lid l fn st1 data :
  In (lid, l) (move_lines st) ->
  move_id l = self ->
  display_type l = None ->
  product_id l = None ->
  _check_intercompany_product self dest st = Ok tt st ->
  reclaim_stale_mirror self dest st = Ok fn st1 ->
  _prepare_invoice_data self dest st1 = Ok data st1 ->
  exists lid0 l0,
    In (lid0, l0) (move_lines st)
    /\ move_id l0 = self /\ display_type l0 = None /\ product_id l0 = None
    /\ _inter_company_create_invoice post ctx self dest st
       = Raise (UserError (line_error (line_name l0)))
               (create_db (force_name fn data) st1).
Proof.
  intros Hin Hm Hd Hp C R P.
  pose proof (prepare_invoice_data_Ok _ _ _ _ _ P) as (_ & src & Ls & _).
  (* the lines of the source are still there after the reclamation *)
  assert (forall lid1 l1, In (lid1, l1) (move_lines st) -> move_id l1 = self ->
            exists l', In (lid1, l') (move_lines st1) /\ same_line l1 l') as K.
  { intros lid1 l1 H1 H2.
    destruct (reclaim_inv _ _ _ _ _ R)
      as [(_ & _ & ->)|(i & m & _ & _ & [(_ & _ & ->)|(_ & _ & ->)])];
      try (exists l1; split; [assumption|apply same_line_refl]).
    apply (unlink_keeps_lines i st self); auto.
    intros ->. rewrite lookup_unlink, Z.eqb_refl in Ls. discriminate. }
  assert (forall lid1 l', In (lid1, l') (move_lines st1) ->
            exists l1, In (lid1, l1) (move_lines st) /\ same_line l1 l') as K'.
  { intros lid1 l' H1.
    destruct (reclaim_inv _ _ _ _ _ R)
      as [(_ & _ & ->)|(i & m & _ & _ & [(_ & _ & ->)|(_ & _ & ->)])];
      try (exists l'; split; [assumption|apply same_line_refl]).
    now apply unlink_lines_from in H1. }
  destruct (K lid l Hin Hm) as (l' & Hin' & S1 & S2 & S3 & S4).
  set (st2 := create_db (force_name fn data) st1).
  destruct (lookup_created (next_move_id st1) (force_name fn data) st1 eq_refl)
    as [md Lmd].
  destruct (lines_loop_raises (next_move_id st1) dest st2 md
              (filter (fun x => negb (is_set (display_type (snd x))))
                 (filter (fun r => move_id (snd r) =? self) (move_lines st2)))
              Lmd) as (r0 & H1 & H2 & H3).
  { exists (lid, l'). split; [|cbn [snd]; congruence].
    apply filter_In. split.
    - apply filter_In. split; [exact Hin'|]. cbn [snd].
      rewrite S1, Hm. apply Z.eqb_refl.
    - cbn [snd]. now rewrite S2, Hd. }
  destruct r0 as [lid0 l0']. cbn [snd] in *.
  apply filter_In in H1 as [H1 D0]. apply filter_In in H1 as [H1 M0].
  cbn [snd] in *.
  destruct (K' lid0 l0' H1) as (l0 & G1 & G2 & G3 & G4 & G5).
  exists lid0, l0. repeat split; auto.
  - rewrite <- G2. now apply Z.eqb_eq.
  - rewrite <- G3. destruct (display_type l0'); [discriminate|reflexivity].
  - congruence.
  - unfold _inter_company_create_invoice.
    rewrite (bind_Ok _ _ _ C), (bind_Ok _ _ _ R), (bind_Ok _ _ _ P).
    unfold bind at 1, create. fold st2.
    apply bind_Raise. unfold prepare_lines.
    unfold bind at 1, invoice_line_ids, gets. rewrite <- G5. exact H3.
Qed.

(** C5 (amended).  If a line of the source that is not a section or a note
    has no product, [_inter_company_create_invoice] raises and the request
    is rolled back to the store it started from: no mirror line and no
    partial mirror document persist.  When the steps that precede the line
    loop pass (product check, reclamation, header data with the journal of
    the destination company), the error is the one that names a line of the
    source without a product (its text contains the label of that line), and
    it is raised after the header of the mirror has been created and before
    any line is: at the raise the line table is the one the reclamation left
    and the line sequence has not advanced.  When one of these steps fails,
    the error is the one of that step. *)
Theorem missing_product_aborts_the_builder
  (post : context -> list Z -> M unit) (ctx : context) (self : Z)
  (dest : res_company) (st : db) (lid : Z) (l : account_move_line) :
  In (lid, l) (move_lines st) ->
  move_id l = self ->
  display_type l = None ->
  product_id l = None ->
  (exists e st2,
      _inter_company_create_invoice post ctx self dest st = Raise e st2
      /\ transaction (_inter_company_create_invoice post ctx self dest) st
         = Raise e st)
  /\ (forall fn st1 data,
         _check_intercompany_product self dest st = Ok tt st ->
         reclaim_stale_mirror self dest st = Ok fn st1 ->
         _prepare_invoice_data self dest st1 = Ok data st1 ->
         exists lid0 l0 st2,
           In (lid0, l0) (move_lines st)
           /\ move_id l0 = self /\ display_type l0 = None
           /\ product_id l0 = None
           /\ contains (line_name l0) (line_error (line_name l0))
           /\ _inter_company_create_invoice post ctx self dest st
              = Raise (UserError (line_error (line_name l0))) st2
           /\ move_lines st2 = move_lines st1
           /\ next_line_id st2 = next_line_id st1
           /\ transaction (_inter_company_create_invoice post ctx self dest) st
              = Raise (UserError (line_error (line_name l0))) st)
  /\ (forall e st1,
         _check_intercompany_product self dest st = Raise e st1 ->
         _inter_company_create_invoice post ctx self dest st = Raise e st1)
  /\ (forall e st1,
         _check_intercompany_product self dest st = Ok tt st ->
         reclaim_stale_mirror self dest st = Raise e st1 ->
         _inter_company_create_invoice post ctx self dest st = Raise e st1)
  /\ (forall fn st1 e st2,
         _check_intercompany_product self dest st = Ok tt st ->
         reclaim_stale_mirror self dest st = Ok fn st1 ->
         _prepare_invoice_data self dest st1 = Raise e st2 ->
         _inter_company_create_invoice post ctx self dest st = Raise e st2).
Proof.
  intros Hin Hm Hd Hp.
  assert (forall fn st1 data,
         _check_intercompany_product self dest st = Ok tt st ->
         reclaim_stale_mirror self dest st = Ok fn st1 ->
         _prepare_invoice_data self dest st1 = Ok data st1 ->
         exists lid0 l0 st2,
           In (lid0, l0) (move_lines st)
           /\ move_id l0 = self /\ display_type l0 = None
           /\ product_id l0 = None
           /\ contains (line_name l0) (line_error (line_name l0))
           /\ _inter_company_create_invoice post ctx self dest st
              = Raise (UserError (line_error (line_name l0))) st2
           /\ move_lines st2 = move_lines st1
           /\ next_line_id st2 = next_line_id st1
           /\ transaction (_inter_company_create_invoice post ctx self dest) st
              = Raise (UserError (line_error (line_name l0))) st) as Second.
  { intros fn st1 data C R P.
    destruct (builder_raises_at_lines post ctx self dest st lid l fn st1 data
                Hin Hm Hd Hp C R P) as (lid0 & l0 & G1 & G2 & G3 & G4 & G5).
    exists lid0, l0, (create_db (force_name fn data) st1).
    repeat split; auto using line_error_contents.
    unfold transaction. now rewrite G5. }
  split; [|split; [exact Second|]].
  - assert (exists e st2,
              _inter_company_create_invoice post ctx self dest st = Raise e st2)
      as (e & st2 & E).
    { destruct (check_intercompany_product_read_only self dest st) as [C|[e C]].
      2:{ exists e, st. unfold _inter_company_create_invoice.
          now apply bind_Raise. }
      destruct (reclaim_stale_mirror self dest st) as [fn st1|e st1] eqn:R.
      2:{ exists e, st1. unfold _inter_company_create_invoice.
          rewrite (bind_Ok _ _ _ C). now apply bind_Raise. }
      destruct (_prepare_invoice_data self dest st1) as [data st1'|e st1'] eqn:P.
      2:{ exists e, st1'. unfold _inter_company_create_invoice.
          rewrite (bind_Ok _ _ _ C), (bind_Ok _ _ _ R). now apply bind_Raise. }
      pose proof (prepare_invoice_data_Ok _ _ _ _ _ P) as [-> _].
      destruct (Second fn st1 data C eq_refl P)
        as (lid0 & l0 & st2 & _ & _ & _ & _ & _ & G & _).
      eexists. eexists. exact G. }
    exists e, st2. split; [exact E|].
    unfold transaction. now rewrite E.
  - split; [|split].
    + intros e st1 C. unfold _inter_company_create_invoice.
      now apply bind_Raise.
    + intros e st1 C R. unfold _inter_company_create_invoice.
      rewrite (bind_Ok _ _ _ C). now apply bind_Raise.
    + intros fn st1 e st2 C R P. unfold _inter_company_create_invoice.
      rewrite (bind_Ok _ _ _ C), (bind_Ok _ _ _ R). now apply bind_Raise.
Qed.

(** ** Well-formedness through the steps *)

Lemma mem_false_iff i ids : mem i ids = false <-> ~ In i ids.
Proof.
  rewrite <- mem_In. destruct (mem i ids); split; congruence.
Qed.

Lemma unique_ids_filter {A} (p : Z * A -> bool) (tbl : list (Z * A)) :
  unique_ids (map fst tbl) = true ->
  unique_ids (map fst (filter p tbl)) = true.
Proof.
  induction tbl as [|r tbl IH]; simpl; auto.
  intros U. apply andb_prop in U as [U1 U2].
  destruct (p r); simpl; auto.
  rewrite IH by assumption. rewrite andb_true_r.
  apply negb_true_iff, mem_false_iff.
  apply negb_true_iff, mem_false_iff in U1.
  intros H. apply U1. apply in_map_iff in H as (x & E & H).
  apply filter_In in H as [H _]. apply in_map_iff. now exists x.
Qed.

Lemma map_fst_map_snd {A} (g : A -> A) (tbl : list (Z * A)) :
  map fst (map (fun r => (fst r, g (snd r))) tbl) = map fst tbl.
Proof. rewrite map_map. now apply map_ext. Qed.

Lemma forallb_filter_fst {A} (q : Z -> bool) (p : Z * A -> bool) tbl :
  forallb q (map fst tbl) = true ->
  forallb q (map fst (filter p tbl)) = true.
Proof.
  rewrite !forallb_forall. intros H x Hx. apply H.
  apply in_map_iff in Hx as (r & E & Hr). apply filter_In in Hr as [Hr _].
  apply in_map_iff. now exists r.
Qed.

Lemma db_ok_unlink ids st : db_ok st = true -> db_ok (unlink_db ids st) = true.
Proof.
  unfold db_ok, unlink_db; cbn [moves next_move_id]. intros H.
  apply andb_prop in H as [U B].
  rewrite map_fst_map_snd. unfold delete_rows.
  now rewrite unique_ids_filter, forallb_filter_fst.
Qed.

Lemma db_ok_fresh st :
  db_ok st = true -> ~ In (next_move_id st) (map fst (moves st)).
Proof.
  unfold db_ok. intros H. apply andb_prop in H as [_ B].
  rewrite forallb_forall in B. intros Hin. apply B in Hin. lia.
Qed.


Lemma update_rows_fresh {A} d (f : A -> A) (tbl : list (Z * A)) :
  ~ In d (map fst tbl) -> update_rows [d] f tbl = tbl.
Proof.
  unfold update_rows.
  induction tbl as [|[j a] tbl IH]; cbn [map fst snd]; auto.
  intros H. rewrite IH by (cbn [In] in H; tauto).
  rewrite mem_single. destruct (j =? d) eqn:E; auto.
  apply Z.eqb_eq in E. subst. cbn [In] in H. tauto.
Qed.

Lemma update_rows_app {A} ids (f : A -> A) (t1 t2 : list (Z * A)) :
  update_rows ids f (t1 ++ t2) = update_rows ids f t1 ++ update_rows ids f t2.
Proof. unfold update_rows. apply map_app. Qed.

Lemma update_rows_last {A} d (f : A -> A) (tbl : list (Z * A)) a :
  ~ In d (map fst tbl) ->
  update_rows [d] f (tbl ++ [(d, a)]) = tbl ++ [(d, f a)].
Proof.
  intros H. rewrite update_rows_app, update_rows_fresh by assumption.
  unfold update_rows; cbn [map fst snd]. now rewrite mem_single, Z.eqb_refl.
Qed.

Lemma lookup_last {A} d (tbl : list (Z * A)) a :
  ~ In d (map fst tbl) -> lookup d (tbl ++ [(d, a)]) = Some a.
Proof.
  intros H. rewrite lookup_app.
  apply lookup_None in H. rewrite H. simpl. now rewrite Z.eqb_refl.
Qed.

Lemma lookup_not_last {A} i d (tbl : list (Z * A)) a x :
  lookup i tbl = Some x -> lookup i (tbl ++ [(d, a)]) = Some x.
Proof. intros H. now rewrite lookup_app, H. Qed.

(** ** The nested post of a mirror *)

(** [action_post] on a document that is itself auto-generated only posts it:
    the loop skips it, whatever the depth left. *)
Lemma action_post_auto_generated n ctx d st dm :
  lookup d (moves st) = Some dm ->
  auto_generated dm = true ->
  action_post (S n) ctx [d] st
  = Ok tt (with_moves (update_rows [d] (set_state posted)) st).
Proof.
  intros L G. cbn [action_post]. unfold super_action_post.
  set (st1 := with_moves (update_rows [d] (set_state posted)) st).
  assert (lookup d (moves st1) = Some (set_state posted dm)) as L1.
  { unfold st1, with_moves; cbn [moves].
    rewrite lookup_update_rows, L. cbn [option_map].
    now rewrite mem_single, Z.eqb_refl. }
  cbn [filtered for_each].
  unfold action_post_one, _find_company_from_invoice_partner.
  monad_unfold. fold st1.
  rewrite (browse_lookup _ _ L1).
  destruct (in_types (move_type (set_state posted dm)) supported_types);
    [|reflexivity].
  cbn [for_each]. monad_unfold. rewrite !(browse_lookup _ _ L1).
  destruct (find _ (companies st1));
    [cbn [auto_generated set_state]; rewrite G|]; reflexivity.
Qed.

(** ** The builder in closed form *)

Lemma map_M_read_only {A B} (f : A -> M B) (xs : list A) st ys st' :
  (forall x y st1, f x st = Ok y st1 -> st1 = st) ->
  map_M f xs st = Ok ys st' -> st' = st.
Proof.
  intros Hf. revert ys st'.
  induction xs as [|x xs IH]; simpl; intros ys st' H.
  - now inversion H.
  - apply bind_inv_Ok in H as (y & st1 & E & H).
    apply Hf in E. subst st1.
    apply bind_inv_Ok in H as (ys' & st2 & E & H).
    apply IH in E. subst st2. now inversion H.
Qed.

Lemma prepare_lines_Ok self d dest st lds st' :
  prepare_lines self d dest st = Ok lds st' -> st' = st.
Proof.
  unfold prepare_lines. intros H.
  apply bind_inv_Ok in H as (ls & st1 & E & H).
  inversion E; subst. clear E.
  apply map_M_read_only in H; auto.
  intros x y stx. destruct (product_id (snd x)); [|discriminate].
  unfold _prepare_account_move_line. intros E.
  apply bind_inv_Ok in E as (dm & sty & Eb & E).
  apply browse_Ok in Eb as [_ ->]. now inversion E.
Qed.

Lemma autocomplete_Ok d st st' :
  _move_autocomplete_invoice_lines_values d st = Ok tt st' ->
  exists u t, st' = with_moves (update_rows [d] (set_amounts u t)) st.
Proof.
  unfold _move_autocomplete_invoice_lines_values. intros H.
  apply bind_inv_Ok in H as (dm & st1 & Eb & H).
  apply browse_Ok in Eb as [_ ->].
  apply bind_inv_Ok in H as (ls & st2 & E & H).
  inversion E; subst. clear E.
  destruct (compute_amounts _ _) as [u t].
  inversion H. now exists u, t.
Qed.

Lemma force_name_auto_generated fn data :
  auto_generated (force_name fn data) = auto_generated data.
Proof.
  unfold force_name. destruct fn as [n|]; [destruct (truthy (Some n))|];
    reflexivity.
Qed.

Lemma builder_Ok n ctx self dest st d st' :
  db_ok st = true ->
  _inter_company_create_invoice (action_post (S n)) ctx self dest st
  = Ok d st' ->
  exists fn st1 data src u t,
    reclaim_stale_mirror self dest st = Ok fn st1
    /\ _prepare_invoice_data self dest st1 = Ok data st1
    /\ lookup self (moves st1) = Some src
    /\ d = next_move_id st1
    /\ moves st'
       = moves st1 ++ [(d, mirror_record dest src u t (force_name fn data))]
    /\ next_move_id st' = d + 1
    /\ companies st' = companies st.
Proof.
  intros OK H. unfold _inter_company_create_invoice in H.
  apply bind_inv_Ok in H as ([] & st0 & C & H).
  apply check_intercompany_product_Ok in C. subst st0.
  apply bind_inv_Ok in H as (fn & st1 & R & H).
  apply bind_inv_Ok in H as (data & st1' & P & H).
  pose proof (prepare_invoice_data_Ok _ _ _ _ _ P)
    as (-> & src & Ls & _ & AG & _).
  cbv zeta in H.
  apply bind_inv_Ok in H as (d0 & st2 & Cr & H).
  unfold create in Cr. inversion Cr; subst d0 st2. clear Cr.
  apply bind_inv_Ok in H as (lds & st2' & PL & H).
  apply prepare_lines_Ok in PL. subst st2'.
  apply bind_inv_Ok in H as ([] & st3 & CL & H).
  unfold create_lines, modify in CL. inversion CL; subst st3. clear CL.
  apply bind_inv_Ok in H as ([] & st4 & AC & H).
  apply autocomplete_Ok in AC as (u & t & ->).
  apply bind_inv_Ok in H as ([] & st5 & V & H).
  unfold ret in H. inversion H; subst. clear H.
  (* the store before the validation step *)
  assert (db_ok st1 = true) as OK1.
  { destruct (reclaim_inv _ _ _ _ _ R)
      as [(_ & _ & ->)|(i & m & _ & _ & [(_ & _ & ->)|(_ & _ & ->)])];
      auto using db_ok_unlink. }
  assert (companies st1 = companies st) as Co.
  { destruct (reclaim_inv _ _ _ _ _ R)
      as [(_ & _ & ->)|(i & m & _ & _ & [(_ & _ & ->)|(_ & _ & ->)])];
      reflexivity. }
  pose proof (db_ok_fresh _ OK1) as Fr.
  set (d := next_move_id st1) in *.
  set (data' := force_name fn data) in *.
  set (st4 := with_moves (update_rows [d] (set_amounts u t))
                (create_lines_db lds (create_db data' st1))) in *.
  assert (moves st4 = moves st1 ++ [(d, set_amounts u t data')]) as M4.
  { unfold st4, with_moves, create_lines_db, create_db; cbn [moves].
    now apply update_rows_last. }
  assert (lookup d (moves st4) = Some (set_amounts u t data')) as Ld
      by (rewrite M4; now apply lookup_last).
  assert (lookup self (moves st4) = Some src) as Ls4
      by (rewrite M4; now apply lookup_not_last).
  exists fn, st1, data, src, u, t.
  split; [exact R|]. split; [exact P|]. split; [exact Ls|].
  split; [reflexivity|].
  unfold validate_or_warn in V.
  rewrite (bind_Ok _ _ _ (browse_lookup _ _ Ls4)) in V.
  rewrite (bind_Ok _ _ _ (browse_lookup _ _ Ld)) in V.
  cbn [amount_total set_amounts] in V.
  unfold mirror_record, totals_agree.
  destruct (invoice_auto_validation dest
            && (float_compare (amount_total src) t
                  (precision_digits (precision_get "Account")) =? 0)).
  - rewrite (action_post_auto_generated n _ d st4 (set_amounts u t data'))
      in V; [|exact Ld|].
    2:{ cbn [auto_generated set_amounts]. unfold data'.
        now rewrite force_name_auto_generated. }
    injection V as <-. unfold with_moves; cbn [moves next_move_id companies].
    rewrite M4. rewrite update_rows_last by assumption.
    repeat split; auto.
  - destruct (negb (float_compare (amount_total src) t
                      (precision_digits (precision_get "Account")) =? 0)).
    + unfold message_post, modify in V. injection V as <-.
      unfold with_moves; cbn [moves next_move_id companies].
      rewrite M4. rewrite update_rows_last by assumption.
      repeat split; auto.
    + unfold ret in V. injection V as <-.
      rewrite M4. repeat split; auto.
Qed.

(** ** The builder returns *)

Lemma lines_loop_Ok d dest st md (ls : list (Z * account_move_line)) :
  lookup d (moves st) = Some md ->
  (forall r, In r ls -> product_id (snd r) <> None) ->
  exists lds,
    map_M (fun src_line =>
             match product_id (snd src_line) with
             | None =>
                 raise (UserError (line_error (line_name (snd src_line))))
             | Some _ => _prepare_account_move_line src_line d dest
             end) ls st
    = Ok lds st.
Proof.
  intros L. induction ls as [|r ls IH]; intros H; simpl map_M.
  - now exists [].
  - destruct IH as [lds E]; [intros r' Hr'; apply H; now right|].
    destruct (product_id (snd r)) as [p|] eqn:P.
    + destruct (prepare_account_move_line_Ok r d dest st md L) as [v Ev].
      exists (v :: lds).
      now rewrite (bind_Ok _ _ _ Ev), (bind_Ok _ _ _ E).
    + exfalso. apply (H r); [now left|exact P].
Qed.

Lemma clear_dangling_move_type ids m :
  move_type (clear_dangling_move ids m) = move_type m.
Proof.
  unfold clear_dangling_move.
  destruct (auto_invoice_id m) as [s|]; [destruct (mem s ids)|]; reflexivity.
Qed.

(** The builder returns once its guards pass: the product check, at most one
    mirror to reclaim, a journal of the destination company, and a product on
    every line that is not a section or a note. *)
Lemma builder_succeeds n ctx self dest st src fn st1 j :
  db_ok st = true ->
  _check_intercompany_product self dest st = Ok tt st ->
  reclaim_stale_mirror self dest st = Ok fn st1 ->
  lookup self (moves st1) = Some src ->
  search_journal (_get_destination_journal_type src) dest st = Some j ->
  lines_complete st self = true ->
  exists d st',
    _inter_company_create_invoice (action_post (S n)) ctx self dest st
    = Ok d st'.
Proof.
  intros OK C R Ls J LC.
  assert (db_ok st1 = true /\ journals st1 = journals st
          /\ forall lid1 l', In (lid1, l') (move_lines st1) ->
               exists l1, In (lid1, l1) (move_lines st) /\ same_line l1 l')
    as (OK1 & Jo & K').
  { destruct (reclaim_inv _ _ _ _ _ R)
      as [(_ & _ & ->)|(i & m & _ & _ & [(_ & _ & ->)|(_ & _ & ->)])];
      repeat split; auto using db_ok_unlink;
      intros lid1 l' H1;
      try (exists l'; split; [assumption|apply same_line_refl]).
    now apply unlink_lines_from in H1. }
  pose proof (db_ok_fresh _ OK1) as Fr.
  assert (exists data, _prepare_invoice_data self dest st1 = Ok data st1)
    as [data P].
  { unfold _prepare_invoice_data.
    rewrite (bind_Ok _ _ _ (browse_lookup _ _ Ls)).
    unfold gets, bind. unfold search_journal in *. rewrite Jo, J.
    eexists. reflexivity. }
  pose proof (prepare_invoice_data_Ok _ _ _ _ _ P)
    as (_ & src' & Ls' & _ & AG & _).
  unfold _inter_company_create_invoice.
  rewrite (bind_Ok _ _ _ C), (bind_Ok _ _ _ R), (bind_Ok _ _ _ P).
  cbv zeta. unfold bind at 1, create.
  set (d := next_move_id st1).
  set (data' := force_name fn data).
  set (st2 := create_db data' st1).
  assert (lookup d (moves st2) = Some data') as L2
      by (unfold st2, create_db; cbn [moves]; now apply lookup_last).
  destruct (lines_loop_Ok d dest st2 data'
              (filter (fun x => negb (is_set (display_type (snd x))))
                 (filter (fun r => move_id (snd r) =? self) (move_lines st2)))
              L2) as [lds PL].
  { intros [lid1 l'] Hr. cbn [snd].
    apply filter_In in Hr as [Hr D]. apply filter_In in Hr as [Hr Mv].
    cbn [snd] in *.
    destruct (K' lid1 l' Hr) as (l1 & G1 & G2 & G3 & G4 & G5).
    unfold lines_complete in LC. rewrite forallb_forall in LC.
    specialize (LC _ G1). cbn [snd] in LC.
    rewrite <- G2, <- G3, <- G4, Mv, D in LC. cbn [andb implb] in LC.
    destruct (product_id l'); [discriminate|discriminate]. }
  assert (prepare_lines self d dest st2 = Ok lds st2) as PL'.
  { unfold prepare_lines, invoice_line_ids, gets. unfold bind at 1. exact PL. }
  rewrite (bind_Ok _ _ _ PL').
  unfold create_lines, modify. unfold bind at 1.
  set (st3 := create_lines_db lds st2).
  assert (lookup d (moves st3) = Some data') as L3 by exact L2.
  unfold _move_autocomplete_invoice_lines_values at 1.
  unfold bind at 1. unfold bind at 1. rewrite (browse_lookup _ _ L3).
  unfold invoice_line_ids, gets. unfold bind at 1.
  destruct (compute_amounts _ _) as [u t]. unfold modify.
  set (st4 := with_moves (update_rows [d] (set_amounts u t)) st3).
  assert (moves st4 = moves st1 ++ [(d, set_amounts u t data')]) as M4.
  { unfold st4, st3, st2, with_moves, create_lines_db, create_db; cbn [moves].
    now apply update_rows_last. }
  assert (lookup d (moves st4) = Some (set_amounts u t data')) as Ld
      by (rewrite M4; now apply lookup_last).
  assert (lookup self (moves st4) = Some src) as Ls4
      by (rewrite M4; now apply lookup_not_last).
  unfold validate_or_warn. unfold bind at 1. unfold bind at 1.
  rewrite (browse_lookup _ _ Ls4). unfold bind at 1.
  rewrite (browse_lookup _ _ Ld).
  destruct (invoice_auto_validation dest && _).
  - rewrite (action_post_auto_generated n _ d st4 (set_amounts u t data'));
      [|exact Ld|].
    + eexists. eexists. reflexivity.
    + cbn [auto_generated set_amounts]. unfold data'.
      now rewrite force_name_auto_generated.
  - destruct (negb _); eexists; eexists; reflexivity.
Qed.

(** ** C3: posting or flagging the new mirror *)

Lemma warning_body_contents dest_total invoice_name company src_total :
  let body := warning_body dest_total invoice_name company src_total in
  contains (str_float dest_total) body
  /\ contains invoice_name body
  /\ contains company body
  /\ contains (str_float src_total) body.
Proof.
  unfold warning_body. repeat split.
  - do 2 apply contains_later. apply contains_here.
  - do 5 apply contains_later. apply contains_here.
  - do 7 apply contains_later. apply contains_here.
  - do 9 apply contains_later. apply contains_end.
Qed.

Lemma force_name_fields fn data :
  state (force_name fn data) = state data
  /\ message_ids (force_name fn data) = message_ids data
  /\ auto_invoice_id (force_name fn data) = auto_invoice_id data
  /\ company_id (force_name fn data) = company_id data.
Proof.
  unfold force_name. destruct fn as [n|]; [destruct (truthy (Some n))|];
    repeat split; reflexivity.
Qed.

Lemma mirror_record_fields dest src u t data :
  amount_total (mirror_record dest src u t data) = t
  /\ name (mirror_record dest src u t data) = name data
  /\ auto_invoice_id (mirror_record dest src u t data) = auto_invoice_id data
  /\ company_id (mirror_record dest src u t data) = company_id data
  /\ auto_generated (mirror_record dest src u t data) = auto_generated data.
Proof.
  unfold mirror_record.
  destruct (invoice_auto_validation dest && _); [|destruct (negb _)];
    repeat split; reflexivity.
Qed.

(** The mirror the builder has built. *)
Lemma mirror_after_build
  (n : nat) (ctx : context) (self : Z) (dest : res_company) (st : db)
  (d : Z) (st' : db) :
  db_ok st = true ->
  _inter_company_create_invoice (action_post (S n)) ctx self dest st
  = Ok d st' ->
  exists src md,
    lookup self (moves st') = Some src
    /\ lookup d (moves st') = Some md
    /\ auto_invoice_id md = Some self
    /\ (state md = posted
        <-> float_compare (amount_total src) (amount_total md)
              (precision_digits (precision_get "Account")) = 0
            /\ invoice_auto_validation dest = true)
    /\ (state md <> posted -> state md = draft)
    /\ (float_compare (amount_total src) (amount_total md)
          (precision_digits (precision_get "Account")) = 0 ->
        message_ids md = [])
    /\ (float_compare (amount_total src) (amount_total md)
          (precision_digits (precision_get "Account")) <> 0 ->
        message_ids md
        = [warning_body (amount_total md) (name src)
             (company_name (company_id src)) (amount_total src)]
        /\ forall body, In body (message_ids md) ->
             contains (str_float (amount_total md)) body
             /\ contains (str_float (amount_total src)) body
             /\ contains (name src) body
             /\ contains (company_name (company_id src)) body).
Proof.
  intros OK H.
  destruct (builder_Ok n ctx self dest st d st' OK H)
    as (fn & st1 & data & src & u & t & R & P & Ls & Ed & Mv & _).
  pose proof (prepare_invoice_data_Ok _ _ _ _ _ P)
    as (_ & src' & Ls' & Sd & AG & AI & _ & _ & Ms & _).
  assert (db_ok st1 = true) as OK1.
  { destruct (reclaim_inv _ _ _ _ _ R)
      as [(_ & _ & ->)|(i & m & _ & _ & [(_ & _ & ->)|(_ & _ & ->)])];
      auto using db_ok_unlink. }
  pose proof (db_ok_fresh _ OK1) as Fr. rewrite <- Ed in Fr.
  destruct (force_name_fields fn data) as (F1 & F2 & F3 & _).
  exists src, (mirror_record dest src u t (force_name fn data)).
  split; [rewrite Mv; now apply lookup_not_last|].
  split; [rewrite Mv; now apply lookup_last|].
  unfold mirror_record, totals_agree.
  pose proof (warning_body_contents t (name src)
                (company_name (company_id src)) (amount_total src)) as W.
  cbv zeta in W.
  destruct (Z.eqb_spec (float_compare (amount_total src) t
                          (precision_digits (precision_get "Account"))) 0)
    as [E|E];
    destruct (invoice_auto_validation dest);
    cbn [andb negb state set_state set_amounts add_message amount_total
         message_ids auto_invoice_id];
    rewrite ?F1, ?F2, ?F3, ?Sd, ?Ms;
    repeat split; try congruence; try tauto; try discriminate;
    try (intros [? ?]; congruence);
    try (intros _ body [<-|[]]; tauto).
  all: match goal with
       | Hb : In _ ([] ++ [_]) |- _ => destruct Hb as [<-|[]]; tauto
       end.
Qed.


(** C3 (amended).  After [_inter_company_create_invoice] has built a mirror,
    the mirror is posted if and only if the source total equals the mirror
    total at the configured accounting precision and the destination company
    has [invoice_auto_validation]; otherwise it is in draft state.  The
    warning note is posted on the mirror exactly when the totals differ: it
    is then the only message of the mirror and it contains both totals, the
    name of the source document and the name of its company; when the totals
    agree the mirror has no message, posted or not.  The builder does build
    the mirror once its guards pass (product check, at most one mirror to
    reclaim, a journal in the destination company, a product on every line
    that is not a section or a note). *)
Theorem mirror_posted_iff_totals_agree_and_auto_validation
  (n : nat) (ctx : context) (self : Z) (dest : res_company) (st : db) :
  db_ok st = true ->
  (forall d st',
      _inter_company_create_invoice (action_post (S n)) ctx self dest st
      = Ok d st' ->
      exists src md,
        lookup self (moves st') = Some src
        /\ lookup d (moves st') = Some md
        /\ auto_invoice_id md = Some self
        /\ (state md = posted
            <-> float_compare (amount_total src) (amount_total md)
                  (precision_digits (precision_get "Account")) = 0
                /\ invoice_auto_validation dest = true)
        /\ (state md <> posted -> state md = draft)
        /\ (float_compare (amount_total src) (amount_total md)
              (precision_digits (precision_get "Account")) = 0 ->
            message_ids md = [])
        /\ (float_compare (amount_total src) (amount_total md)
              (precision_digits (precision_get "Account")) <> 0 ->
            message_ids md
            = [warning_body (amount_total md) (name src)
                 (company_name (company_id src)) (amount_total src)]
            /\ forall body, In body (message_ids md) ->
                 contains (str_float (amount_total md)) body
                 /\ contains (str_float (amount_total src)) body
                 /\ contains (name src) body
                 /\ contains (company_name (company_id src)) body))
  /\ (forall src force_number st1 j,
         _check_intercompany_product self dest st = Ok tt st ->
         reclaim_stale_mirror self dest st = Ok force_number st1 ->
         lookup self (moves st1) = Some src ->
         search_journal (_get_destination_journal_type src) dest st = Some j ->
         lines_complete st self = true ->
         exists d st',
           _inter_company_create_invoice (action_post (S n)) ctx self dest st
           = Ok d st').
Proof.
  intros OK. split.
  - intros d st' H. exact (mirror_after_build n ctx self dest st d st' OK H).
  - intros src fn st1 j C R L J LC.
    exact (builder_succeeds n ctx self dest st src fn st1 j OK C R L J LC).
Qed.

(** ** C8: reclamation of a stale mirror and reuse of its number *)

Lemma db_ok_below st i m :
  db_ok st = true -> lookup i (moves st) = Some m -> i < next_move_id st.
Proof.
  unfold db_ok. intros H L. apply andb_prop in H as [_ B].
  rewrite forallb_forall in B.
  apply lookup_In in L. apply (in_map fst) in L. apply B in L.
  simpl in L. lia.
Qed.

Lemma force_name_Some n data :
  n <> EmptyString -> name (force_name (Some n) data) = n.
Proof.
  unfold force_name, truthy. destruct n; [congruence|reflexivity].
Qed.

(** C8.  When the builder finds one mirror of (source, destination company):
    if that mirror is in draft or cancel state the reclamation deletes it and
    hands its number over, so that after the build the old mirror is gone and
    the new mirror carries the number of the deleted one (a mirror that has a
    number: the empty name is the absence of one); if that mirror is posted,
    the builder re-checks its state, deletes nothing, and the posted mirror is
    still there, unchanged, after the build.  In both cases the builder
    returns once its guards pass. *)
Theorem stale_mirror_reclaimed_and_number_reused
  (n : nat) (ctx : context) (self : Z) (dest : res_company) (st : db)
  (i : Z) (m : account_move) :
  db_ok st = true ->
  map fst (mirrors st self (company_key dest)) = [i] ->
  lookup i (moves st) = Some m ->
  (state m = draft \/ state m = cancel ->
   reclaim_stale_mirror self dest st
   = Ok (Some (name m)) (unlink_db [i] st)
   /\ lookup i (moves (unlink_db [i] st)) = None
   /\ forall d st',
        _inter_company_create_invoice (action_post (S n)) ctx self dest st
        = Ok d st' ->
        lookup i (moves st') = None
        /\ exists md,
             lookup d (moves st') = Some md
             /\ auto_invoice_id md = Some self
             /\ company_id md = dest
             /\ (name m <> EmptyString -> name md = name m))
  /\ (state m = posted ->
      reclaim_stale_mirror self dest st = Ok None st
      /\ forall d st',
           _inter_company_create_invoice (action_post (S n)) ctx self dest st
           = Ok d st' ->
           d <> i /\ lookup i (moves st') = Some m)
  /\ (forall src j,
         _check_intercompany_product self dest st = Ok tt st ->
         self <> i ->
         lookup self (moves st) = Some src ->
         search_journal (_get_destination_journal_type src) dest st = Some j ->
         lines_complete st self = true ->
         exists d st',
           _inter_company_create_invoice (action_post (S n)) ctx self dest st
           = Ok d st').
Proof.
  intros OK F L.
  pose proof (reclaim_one self dest st i m F L) as R1.
  pose proof (db_ok_below st i m OK L) as Lt.
  assert (lookup i (moves (unlink_db [i] st)) = None) as Gone
      by (now rewrite lookup_unlink, Z.eqb_refl).
  split; [|split].
  - intros S.
    assert (state_in (state m) [draft; cancel] = true) as SI
        by (destruct S as [-> | ->]; reflexivity).
    rewrite SI in R1. split; [exact R1|]. split; [exact Gone|].
    intros d st' H.
    destruct (builder_Ok n ctx self dest st d st' OK H)
      as (fn & st1 & data & src & u & t & R & P & Ls & Ed & Mv & _).
    rewrite R1 in R. injection R as <- <-.
    pose proof (prepare_invoice_data_Ok _ _ _ _ _ P)
      as (_ & src' & _ & _ & _ & AI & Co & _).
    cbn [next_move_id unlink_db] in Ed.
    assert (~ In d (map fst (moves (unlink_db [i] st)))) as Fr
        by (rewrite Ed; apply (db_ok_fresh (unlink_db [i] st));
            now apply db_ok_unlink).
    split.
    + rewrite Mv, lookup_app, Gone. cbn [lookup].
      destruct (d =? i) eqn:E; [apply Z.eqb_eq in E; lia|reflexivity].
    + eexists. split; [rewrite Mv; now apply lookup_last|].
      destruct (mirror_record_fields dest src u t
                  (force_name (Some (name m)) data)) as (_ & N & A & C & _).
      destruct (force_name_fields (Some (name m)) data) as (_ & _ & A' & C').
      rewrite N, A, C, A', C'. repeat split; auto.
      intros NE. now apply force_name_Some.
  - intros S.
    assert (state_in (state m) [draft; cancel] = false) as SI
        by (rewrite S; reflexivity).
    rewrite SI in R1. split; [exact R1|].
    intros d st' H.
    destruct (builder_Ok n ctx self dest st d st' OK H)
      as (fn & st1 & data & src & u & t & R & P & Ls & Ed & Mv & _).
    rewrite R1 in R. injection R as <- <-.
    split; [lia|]. rewrite Mv. now apply lookup_not_last.
  - intros src j C N Ls J LC.
    destruct (state_in (state m) [draft; cancel]).
    + apply (builder_succeeds n ctx self dest st
               (clear_dangling_move [i] src) _ _ j OK C R1); auto.
      * rewrite lookup_unlink, Ls.
        destruct (self =? i) eqn:E; [apply Z.eqb_eq in E; tauto|reflexivity].
      * unfold _get_destination_journal_type in *.
        now rewrite clear_dangling_move_type.
    + now apply (builder_succeeds n ctx self dest st src _ _ j OK C R1).
Qed.

(** ** C1: a posted mirror is not rebuilt *)






















(** ** C2: a failure in a batch *)

(** The loop body has no handler: what the builder raises for a source that
    has passed the guards, the iteration raises, on the same store. *)
Lemma action_post_one_raises post ctx src st m dest e st2 :
  lookup src (moves st) = Some m ->
  auto_generated m = false ->
  company_of_partner st m = Some dest ->
  mirrors_where (fun x => is_posted x && visible ctx x)
    (moves st) src (company_key dest) = [] ->
  _inter_company_create_invoice post (builder_env ctx dest) src dest st
  = Raise e st2 ->
  action_post_one post ctx src st = Raise e st2.
Proof.
  intros L AG F G B. unfold company_of_partner in F.
  unfold action_post_one, _find_company_from_invoice_partner.
  monad_unfold. rewrite !(browse_lookup _ _ L), F, AG.
  unfold search_as, search. monad_unfold.
  replace (filter _ (moves st)) with (@nil (Z * account_move)).
  - cbn [map]. now rewrite B.
  - rewrite <- G. unfold mirrors_where, is_posted. apply filter_ext.
    intros r. now rewrite andb_assoc.
Qed.

(** C2 (amended).  [action_post] has no handler around the mirroring of one
    document: when the loop has mirrored the documents [pre] of the batch and
    the builder raises for the next one, [src] (a document that is not
    auto-generated, whose partner is a managed company and of which the
    guard has seen no posted mirror), [action_post] raises that very error
    on the store of that failure; the documents [rest] that follow are not
    processed, and the request boundary rolls back the whole batch, the
    mirrors built for [pre] included. *)
Theorem batch_post_stops_at_first_failure
  (n : nat) (ctx : context) (self : list Z) (st : db)
  (pre : list Z) (src : Z) (rest : list Z) (st1 : db)
  (m : account_move) (dest : res_company) (e : exn) (st2 : db) :
  filtered (fun x => in_types (move_type x) supported_types) self
    (with_moves (update_rows self (set_state posted)) st)
  = Ok (pre ++ src :: rest)
       (with_moves (update_rows self (set_state posted)) st) ->
  for_each pre (action_post_one (action_post n) ctx)
    (with_moves (update_rows self (set_state posted)) st)
  = Ok tt st1 ->
  lookup src (moves st1) = Some m ->
  auto_generated m = false ->
  company_of_partner st1 m = Some dest ->
  mirrors_where (fun x => is_posted x && visible ctx x)
    (moves st1) src (company_key dest) = [] ->
  _inter_company_create_invoice (action_post n) (builder_env ctx dest)
    src dest st1
  = Raise e st2 ->
  action_post_one (action_post n) ctx src st1 = Raise e st2
  /\ action_post (S n) ctx self st = Raise e st2
  /\ transaction (action_post (S n) ctx self) st = Raise e st.
Proof.
  intros F P L AG C G B.
  pose proof (action_post_one_raises _ ctx src st1 m dest e st2 L AG C G B)
    as R.
  assert (action_post (S n) ctx self st = Raise e st2) as E.
  { cbn [action_post]. unfold super_action_post, modify. unfold bind at 1.
    rewrite (bind_Ok _ _ _ F).
    exact (for_each_raise pre src rest _ _ st1 e st2 P R). }
  split; [exact R|]. split; [exact E|]. unfold transaction. now rewrite E.
Qed.

(** ** C7: the cascade of a cancellation *)


























End Properties.

(** * The workflow on the sample books *)

Section Samples.

Import Demo.

(** The example scenario of the specification: a customer invoice of A to
    B of 200.00, one line of 2 x 100.00; posting it with auto-validation in
    B yields a posted vendor bill in B, partner A, totals 200.00 / 200.00,
    auto-generated from the source, with one line copied from the source
    line. *)
Example posting_builds_a_posted_vendor_bill :
  let st' := store_of (action_post 2 default_context [1]
                         (one_invoice true false)) in
  action_post 2 default_context [1] (one_invoice true false) = Ok tt st'
  /\ option_map state (lookup 1 (moves st')) = Some posted
  /\ lookup 100 (moves st')
     = Some {| name := "/"; move_type := in_invoice; state := posted;
               company_id := company_B true; partner_id := partner_A;
               currency_id := EUR; journal_id := Some 4;
               ref := "INV/0001"; invoice_date := "2023-01-31";
               narration := EmptyString;
               invoice_origin := "Company A - Invoice: INV/0001";
               auto_generated := true; auto_invoice_id := Some 1;
               amount_untaxed := 20000; amount_total := 20000;
               message_ids := [] |}
  /\ map snd (filter (fun r => move_id (snd r) =? 100) (move_lines st'))
     = [ {| move_id := 100; line_company_id := 2; display_type := None;
            product_id := Some service; line_name := "Service";
            product_uom_id := 1; quantity := 2; price_unit := 10000;
            discount := 0; sequence := 10;
            auto_invoice_line_id := Some 1 |} ].
Proof. vm_compute. repeat split. Qed.

(** C4 on a customer invoice. *)
Lemma destination_invoice_type_involution_witness :
  exists t,
    _get_destination_invoice_type (invoice_A "INV/0001" draft 20000 20000)
    = Some t
    /\ in_types t supported_types = true
    /\ t <> out_invoice
    /\ forall m', move_type m' = t ->
                  _get_destination_invoice_type m' = Some out_invoice.
Proof.
  apply (proj1 (destination_invoice_type_involution
                  (invoice_A "INV/0001" draft 20000 20000))).
  reflexivity.
Defined.

(** C9 on a posted invoice with a posted mirror. *)
Lemma button_draft_rejected_by_posted_mirror_witness :
  exists d' i' m' msg,
    In d' [1]
    /\ lookup i' (moves (mirrored posted EUR 20000)) = Some m'
    /\ auto_invoice_id m' = Some d'
    /\ state m' = posted
    /\ ([1] = [1] -> d' = 1)
    /\ msg = draft_error (name m') (display_name (partner_id m'))
    /\ contains (name m') msg
    /\ contains (display_name (partner_id m')) msg
    /\ button_draft default_context [1] (mirrored posted EUR 20000)
       = Raise (UserError msg) (mirrored posted EUR 20000)
    /\ transaction (button_draft default_context [1])
         (mirrored posted EUR 20000)
       = Raise (UserError msg) (mirrored posted EUR 20000).
Proof.
  apply (button_draft_rejected_by_posted_mirror default_context [1]
           (mirrored posted EUR 20000) 1 2
           (bill_B true "BILL/0007" posted 1 EUR 20000 20000)).
  - reflexivity.
  - simpl. auto.
  - reflexivity.
  - reflexivity.
  - reflexivity.
Defined.

(** C6: a write that changes the untaxed total of a draft mirror is
    rejected; a write of a note on two mirrors is rejected as a whole when
    one of them diverges from its source. *)
Lemma write_rejected_iff_untaxed_diverges_witness :
  ((write default_context [2] (set_amounts 20030 20030)
      (mirrored draft EUR 20000)
    = Raise (UserError (write_error "INV/0001"))
            (with_moves (update_rows [2] (set_amounts 20030 20030))
               (mirrored draft EUR 20000))
    <-> cents_compare 20030 20000 (precision_rounding 1) <> 0)
   /\ (write default_context [2] (set_amounts 20030 20030)
         (mirrored draft EUR 20000)
       = Ok tt (with_moves (update_rows [2] (set_amounts 20030 20030))
                  (mirrored draft EUR 20000))
       <-> cents_compare 20030 20000 (precision_rounding 1) = 0))
  /\ ((exists e st',
          write default_context [2; 5] (set_invoice_origin "Checked")
            two_mirrored = Raise e st')
      <-> exists i,
            In i [2; 5]
            /\ diverges (with_moves
                           (update_rows [2; 5] (set_invoice_origin "Checked"))
                           two_mirrored) i).
Proof.
  split.
  - refine (proj2 (proj2 (proj2
             (proj2 (write_rejected_iff_untaxed_diverges (host := cents_host)
                       default_context [2] (set_amounts 20030 20030)
                       (mirrored draft EUR 20000) _)
                    eq_refl)))
             2 (bill_B true "BILL/0007" draft 1 EUR 20030 20030) 1
             (invoice_A "INV/0001" posted 20000 20000)
             eq_refl eq_refl eq_refl eq_refl).
    intros i [<-|[]]; (eexists; split; [reflexivity|]);
      intros s' [= <-]; eexists; reflexivity.
  - refine (proj1 (proj2
             (proj2 (write_rejected_iff_untaxed_diverges (host := cents_host)
                       default_context [2; 5] (set_invoice_origin "Checked")
                       two_mirrored _)
                    eq_refl))).
    intros i [<-|[<-|[]]]; (eexists; split; [reflexivity|]);
      intros s' [= <-]; eexists; reflexivity.
Defined.

(** C6 as stated fails: the mirror is in a currency rounded to 1.00, its
    source in a currency rounded to 0.01; a write that moves the untaxed total
    of the mirror from 200.00 to 200.30 is accepted, although the two totals
    differ at the rounding of the currency of the source. *)
Lemma write_compares_at_the_rounding_of_the_mirror :
  write default_context [2] (set_amounts 20030 20030)
    (mirrored draft JPY 20000)
  = Ok tt (with_moves (update_rows [2] (set_amounts 20030 20030))
             (mirrored draft JPY 20000))
  /\ lookup 2 (moves (with_moves (update_rows [2] (set_amounts 20030 20030))
                        (mirrored draft JPY 20000)))
     = Some (bill_B true "BILL/0007" draft 1 JPY 20030 20030)
  /\ lookup 1 (moves (with_moves (update_rows [2] (set_amounts 20030 20030))
                        (mirrored draft JPY 20000)))
     = Some (invoice_A "INV/0001" posted 20000 20000)
  /\ float_compare 20030 20000 (precision_rounding (rounding EUR)) <> 0
  /\ float_compare 20030 20000 (precision_rounding (rounding JPY)) = 0.
Proof.
  split; [reflexivity|]. split; [reflexivity|]. split; [reflexivity|].
  split; [discriminate|reflexivity].
Qed.

(** C10 on books with one mirror, and on books with two. *)
Lemma reclamation_expects_at_most_one_mirror_witness :
  (exists force_number st',
      reclaim_stale_mirror 1 (company_B true) (mirrored draft EUR 20000)
      = Ok force_number st')
  /\ (reclaim_stale_mirror 1 (company_B true) mirrored_twice
      = Raise (ExpectedSingleton [2; 3]) mirrored_twice
      /\ (exists e,
             _inter_company_create_invoice (action_post 1) default_context 1
               (company_B true) mirrored_twice = Raise e mirrored_twice)
      /\ (_check_intercompany_product 1 (company_B true) mirrored_twice
          = Ok tt mirrored_twice ->
          _inter_company_create_invoice (action_post 1) default_context 1
            (company_B true) mirrored_twice
          = Raise (ExpectedSingleton [2; 3]) mirrored_twice)).
Proof.
  split.
  - apply (proj1 (reclamation_expects_at_most_one_mirror
                    (host := cents_host)
                    (action_post 1) default_context 1 (company_B true)
                    (mirrored draft EUR 20000))).
    simpl. lia.
  - apply (proj2 (reclamation_expects_at_most_one_mirror
                    (host := cents_host)
                    (action_post 1) default_context 1 (company_B true)
                    mirrored_twice)).
    simpl. lia.
Defined.

(** C5 on the invoice whose line has no product. *)
Lemma missing_product_aborts_the_builder_witness :
  (exists e st2,
      _inter_company_create_invoice (action_post 1) default_context 1
        (company_B true) two_invoices = Raise e st2
      /\ transaction
           (_inter_company_create_invoice (action_post 1) default_context 1
              (company_B true)) two_invoices
         = Raise e two_invoices)
  /\ (exists lid0 l0 st2,
         In (lid0, l0) (move_lines two_invoices)
         /\ move_id l0 = 1 /\ display_type l0 = None
         /\ product_id l0 = None
         /\ contains (line_name l0) (line_error (line_name l0))
         /\ _inter_company_create_invoice (action_post 1) default_context 1
              (company_B true) two_invoices
            = Raise (UserError (line_error (line_name l0))) st2
         /\ move_lines st2 = move_lines two_invoices
         /\ next_line_id st2 = next_line_id two_invoices
         /\ transaction
              (_inter_company_create_invoice (action_post 1) default_context 1
                 (company_B true)) two_invoices
            = Raise (UserError (line_error (line_name l0))) two_invoices).
Proof.
  split.
  - apply (proj1 (missing_product_aborts_the_builder (host := cents_host)
                    (action_post 1) default_context 1 (company_B true)
                    two_invoices 1 (product_line 1 None "Consulting" 2 10000)
                    (or_introl eq_refl) eq_refl eq_refl eq_refl)).
  - apply (proj1 (proj2 (missing_product_aborts_the_builder
                    (host := cents_host)
                    (action_post 1) default_context 1 (company_B true)
                    two_invoices 1 (product_line 1 None "Consulting" 2 10000)
                    (or_introl eq_refl) eq_refl eq_refl eq_refl))
             None two_invoices
             (value_of (_prepare_invoice_data 1 (company_B true) two_invoices)
                       (invoice_A "INV/0001" draft 0 0)));
      reflexivity.
Defined.

(** C5 as stated fails: the line of the invoice has no product, and company
    B has no purchase journal.  The builder raises the error of the missing
    journal, which does not name the line; the line loop is never reached. *)
Lemma missing_journal_is_reported_before_the_missing_product :
  let built :=
    _inter_company_create_invoice (action_post 1) default_context 1
      (company_B true) no_purchase_journal in
  move_lines no_purchase_journal
  = [(1, product_line 1 None "Consulting" 2 10000)]
  /\ built
     = Raise (UserError (journal_error (Some "purchase"%string)
                                       (company_B true)))
             no_purchase_journal
  /\ journal_error (Some "purchase"%string) (company_B true)
     <> line_error "Consulting"
  /\ ~ contains "Consulting"
         (journal_error (Some "purchase"%string) (company_B true)).
Proof.
  split; [reflexivity|]. split; [reflexivity|]. split; [discriminate|].
  intros H. apply contains_occurs in H. vm_compute in H. discriminate.
Qed.

(** C3: with a tax on the source that the destination does not have, the
    totals differ and the mirror is left in draft with the warning. *)
Lemma mirror_posted_iff_totals_agree_and_auto_validation_witness :
  exists src md,
    lookup 1 (moves (store_of
       (_inter_company_create_invoice (action_post 1) default_context 1
          (company_B true) (one_invoice true true)))) = Some src
    /\ lookup 100 (moves (store_of
         (_inter_company_create_invoice (action_post 1) default_context 1
            (company_B true) (one_invoice true true)))) = Some md
    /\ auto_invoice_id md = Some 1
    /\ (state md = posted
        <-> float_compare (amount_total src) (amount_total md)
              (precision_digits (precision_get "Account")) = 0
            /\ invoice_auto_validation (company_B true) = true)
    /\ (state md <> posted -> state md = draft)
    /\ (float_compare (amount_total src) (amount_total md)
          (precision_digits (precision_get "Account")) = 0 ->
        message_ids md = [])
    /\ (float_compare (amount_total src) (amount_total md)
          (precision_digits (precision_get "Account")) <> 0 ->
        message_ids md
        = [warning_body (amount_total md) (name src)
             (company_name (company_id src)) (amount_total src)]
        /\ forall body, In body (message_ids md) ->
             contains (str_float (amount_total md)) body
             /\ contains (str_float (amount_total src)) body
             /\ contains (name src) body
             /\ contains (company_name (company_id src)) body).
Proof.
  apply (proj1 (mirror_posted_iff_totals_agree_and_auto_validation
                  (host := cents_host) 0 default_context 1 (company_B true)
                  (one_invoice true true) eq_refl) 100).
  reflexivity.
Defined.

(** C3 as stated fails: the totals agree and the destination company does
    not validate automatically; the mirror is left in draft and no warning
    note is posted on it. *)
Lemma draft_mirror_without_warning :
  let built :=
    _inter_company_create_invoice (action_post 1) default_context 1
      (company_B false) (one_invoice false false) in
  built = Ok 100 (store_of built)
  /\ invoice_auto_validation (company_B false) = false
  /\ option_map state (lookup 100 (moves (store_of built))) = Some draft
  /\ option_map message_ids (lookup 100 (moves (store_of built))) = Some []
  /\ option_map amount_total (lookup 100 (moves (store_of built)))
     = Some 20000
  /\ option_map amount_total (lookup 1 (moves (store_of built)))
     = Some 20000
  /\ float_compare 20000 20000 (precision_digits (precision_get "Account"))
     = 0.
Proof. vm_compute. repeat split. Qed.

(** C8 on a posted invoice with a draft mirror, and with a posted one. *)
Lemma stale_mirror_reclaimed_and_number_reused_witness :
  (reclaim_stale_mirror 1 (company_B true) (mirrored draft EUR 20000)
   = Ok (Some "BILL/0007"%string) (unlink_db [2] (mirrored draft EUR 20000))
   /\ lookup 2 (moves (unlink_db [2] (mirrored draft EUR 20000))) = None
   /\ forall d st',
        _inter_company_create_invoice (action_post 1) default_context 1
          (company_B true) (mirrored draft EUR 20000) = Ok d st' ->
        lookup 2 (moves st') = None
        /\ exists md,
             lookup d (moves st') = Some md
             /\ auto_invoice_id md = Some 1
             /\ company_id md = company_B true
             /\ ("BILL/0007"%string <> EmptyString ->
                 name md = "BILL/0007"%string))
  /\ (reclaim_stale_mirror 1 (company_B true) (mirrored posted EUR 20000)
      = Ok None (mirrored posted EUR 20000)
      /\ forall d st',
           _inter_company_create_invoice (action_post 1) default_context 1
             (company_B true) (mirrored posted EUR 20000) = Ok d st' ->
           d <> 2
           /\ lookup 2 (moves st')
              = Some (bill_B true "BILL/0007" posted 1 EUR 20000 20000))
  /\ (exists d st',
         _inter_company_create_invoice (action_post 1) default_context 1
           (company_B true) (mirrored draft EUR 20000) = Ok d st').
Proof.
  split; [|split].
  - apply (proj1 (stale_mirror_reclaimed_and_number_reused
                    (host := cents_host) 0 default_context 1 (company_B true)
                    (mirrored draft EUR 20000) 2
                    (bill_B true "BILL/0007" draft 1 EUR 20000 20000)
                    eq_refl eq_refl eq_refl)).
    left. reflexivity.
  - apply (proj1 (proj2 (stale_mirror_reclaimed_and_number_reused
                    (host := cents_host) 0 default_context 1 (company_B true)
                    (mirrored posted EUR 20000) 2
                    (bill_B true "BILL/0007" posted 1 EUR 20000 20000)
                    eq_refl eq_refl eq_refl))).
    reflexivity.
  - apply (proj2 (proj2 (stale_mirror_reclaimed_and_number_reused
                    (host := cents_host) 0 default_context 1 (company_B true)
                    (mirrored draft EUR 20000) 2
                    (bill_B true "BILL/0007" draft 1 EUR 20000 20000)
                    eq_refl eq_refl eq_refl))
             (invoice_A "INV/0001" posted 20000 20000)
             {| journal_key := 4; journal_type := "purchase";
                journal_company_id := 2 |}).
    + reflexivity.
    + discriminate.
    + reflexivity.
    + reflexivity.
    + reflexivity.
Defined.



(** C2 on a batch of two invoices, the first of which has a line without
    product. *)
Lemma batch_post_stops_at_first_failure_witness :
  action_post_one (action_post 1) default_context 1
    (with_moves (update_rows [1; 2] (set_state posted)) two_invoices)
  = Raise (UserError (line_error "Consulting"))
          (store_of (action_post 2 default_context [1; 2] two_invoices))
  /\ action_post 2 default_context [1; 2] two_invoices
     = Raise (UserError (line_error "Consulting"))
             (store_of (action_post 2 default_context [1; 2] two_invoices))
  /\ transaction (action_post 2 default_context [1; 2]) two_invoices
     = Raise (UserError (line_error "Consulting")) two_invoices.
Proof.
  apply (batch_post_stops_at_first_failure (host := cents_host)
           1 default_context [1; 2] two_invoices [] 1 [2]
           (with_moves (update_rows [1; 2] (set_state posted)) two_invoices)
           (invoice_A "INV/0001" posted 20000 20000) (company_B true));
    reflexivity.
Defined.

(** C2 as stated fails: posted alone, the second invoice gets its mirror;
    posted in a batch after an invoice whose mirroring fails, it is never
    mirrored, the error of the first one ends the whole [action_post]. *)
Lemma failure_in_a_batch_aborts_the_siblings :
  let batch := action_post 2 default_context [1; 2] two_invoices in
  let alone := action_post 2 default_context [2] two_invoices in
  batch = Raise (UserError (line_error "Consulting")) (store_of batch)
  /\ mirrors (store_of batch) 2 2 = []
  /\ alone = Ok tt (store_of alone)
  /\ map fst (mirrors (store_of alone) 2 2) = [100].
Proof. vm_compute. repeat split. Qed.



End Samples.
